(** * Expense Tracker API (backend/server.py): analytics, updates, seeding, export

    A shallow embedding of the request handlers of [backend/server.py] and
    the properties of its analytics and query-aggregation engine.

    Modelling conventions.
    - A MongoDB collection is the list of its documents in natural (insertion)
      order; [find(q).to_list(n)] is [take n (filter q coll)].
    - [amount] is a Python [float] in the source.  The handlers are embedded
      with amounts as exact rationals ([Qc]), for the properties that do not
      depend on how doubles round.  The monthly report is embedded a second
      time in module [Float64], with amounts as IEEE 754 binary64 numbers,
      for the properties of its arithmetic: rounding, overflow, NaN and the
      division by zero.
    - A Python [int] is [Z]; a [str] is a [string] of bytes (UTF-8).
    - A handler that raises returns [Raises e]; a handler that writes to the
      database returns the new database next to its outcome. *)

From Stdlib Require Import ZArith QArith Qcanon Qround String Ascii List Lia.
From stdpp Require Import gmap strings list fin_maps numbers pretty sorting.
From Equations Require Import Equations.
From Stdlib Require Floats Uint63.

Open Scope string_scope.
Open Scope Z_scope.

(** ** Python primitives *)

Module Py.

(** Exceptions that reach the transport layer. *)
Inductive exn : Type :=
| HTTPException (status_code : Z) (detail : string)
| ValueError (msg : string)
| OverflowError (msg : string)
| ZeroDivisionError (msg : string)
| IndexError (msg : string)
| TypeError (msg : string)
| AttributeError (msg : string).

Inductive outcome (A : Type) : Type :=
| Returns (a : A)
| Raises (e : exn).
Arguments Returns {A} a.
Arguments Raises {A} e.

Definition bind {A B} (m : outcome A) (k : A -> outcome B) : outcome B :=
  match m with
  | Returns a => k a
  | Raises e => Raises e
  end.

(** A key of a stored document read with [dict.get]: the key may be
    missing, hold [None], or hold a value. *)
Inductive field (A : Type) : Type :=
| Missing
| Null
| Value (a : A).
Arguments Missing {A}.
Arguments Null {A}.
Arguments Value {A} a.

(** [datetime]: calendar date and the microseconds elapsed since midnight. *)
Record datetime : Type := mk_datetime {
  dt_year : Z;
  dt_month : Z;
  dt_day : Z;
  dt_usec : Z
}.

Definition MINYEAR : Z := 1.
Definition MAXYEAR : Z := 9999.

Definition is_leap (y : Z) : bool :=
  (y mod 4 =? 0) && (negb (y mod 100 =? 0) || (y mod 400 =? 0)).

Definition days_in_month (y m : Z) : Z :=
  if m =? 2 then (if is_leap y then 29 else 28)
  else if (m =? 4) || (m =? 6) || (m =? 9) || (m =? 11) then 30
  else 31.

(** The range of a C [int]: the constructor converts its arguments to one
    before it looks at them. *)
Definition fits_C_int (n : Z) : bool := (- 2 ^ 31 <=? n) && (n <? 2 ^ 31).

(** [datetime(year, month, day)]: [OverflowError] for an argument beyond a C
    [int], [ValueError] outside the supported range.  The text of the
    [OverflowError] differs between versions of the interpreter and is not
    followed here. *)
Definition datetime_ymd (y m d : Z) : outcome datetime :=
  if negb (fits_C_int y && fits_C_int m && fits_C_int d) then
    Raises (OverflowError "Python int too large to convert to C int")
  else if negb ((MINYEAR <=? y) && (y <=? MAXYEAR)) then
    Raises (ValueError "year is out of range")
  else if negb ((1 <=? m) && (m <=? 12)) then
    Raises (ValueError "month must be in 1..12")
  else if negb ((1 <=? d) && (d <=? days_in_month y m)) then
    Raises (ValueError "day is out of range for month")
  else Returns (mk_datetime y m d 0).

(** Chronological order: lexicographic on (year, month, day, time of day). *)
Definition datetime_compare (a b : datetime) : comparison :=
  match dt_year a ?= dt_year b with
  | Eq =>
      match dt_month a ?= dt_month b with
      | Eq =>
          match dt_day a ?= dt_day b with
          | Eq => dt_usec a ?= dt_usec b
          | c => c
          end
      | c => c
      end
  | c => c
  end.

Definition datetime_ltb (a b : datetime) : bool :=
  match datetime_compare a b with Lt => true | _ => false end.

Definition datetime_leb (a b : datetime) : bool :=
  match datetime_compare a b with Gt => false | _ => true end.

(** A value a [datetime] can hold. *)
Definition valid_datetime (d : datetime) : Prop :=
  MINYEAR <= dt_year d <= MAXYEAR /\
  1 <= dt_month d <= 12 /\
  1 <= dt_day d <= days_in_month (dt_year d) (dt_month d) /\
  0 <= dt_usec d < 86400000000.

(** [sum(...)] over exact amounts: starts from [0] and adds left to right.
    [Float64.sum] is the sum of doubles. *)
Definition sum (xs : list Qc) : Qc := fold_left Qcplus xs 0%Qc.

Definition Qc_gtb (x y : Qc) : bool :=
  match (x ?= y)%Qc with Gt => true | _ => false end.

(** Nearest integer, ties to the even one. *)
Definition round_half_even (x : Q) : Z :=
  let f := Qfloor x in
  match ((x - inject_Z f) ?= (1 # 2))%Q with
  | Lt => f
  | Gt => f + 1
  | Eq => if Z.even f then f else f + 1
  end.

(** [round(x, 1)] of an exact amount: one decimal place.  [Float64.round1]
    is [round(x, 1)] of a double. *)
Definition round1 (x : Qc) : Qc :=
  Q2Qc (inject_Z (round_half_even (x * 10)%Q) / 10).

(** [s.replace(old, new)] for a pattern [old] of one character. *)
Fixpoint str_replace (old : ascii) (new : string) (s : string) : string :=
  match s with
  | EmptyString => EmptyString
  | String c rest =>
      if Ascii.eqb c old then new +:+ str_replace old new rest
      else String c (str_replace old new rest)
  end.

(** ["sep".join(rows)] *)
Fixpoint join (sep : string) (rows : list string) : string :=
  match rows with
  | [] => ""
  | [r] => r
  | r :: rest => r +:+ sep +:+ join sep rest
  end.

End Py.
Import Py.

#[global] Instance outcome_ret : MRet outcome := @Returns.
#[global] Instance outcome_bind : MBind outcome := fun A B k m => Py.bind m k.

(** ** Models and stored documents *)

Inductive TransactionType : Type := EXPENSE | INCOME.

Definition TransactionType_value (t : TransactionType) : string :=
  match t with EXPENSE => "expense" | INCOME => "income" end.

Record Category : Type := mk_Category {
  cat_id : string;
  cat_name : string;
  cat_color : string;
  cat_icon : string;
  cat_created_at : datetime
}.

Record CategoryUpdate : Type := mk_CategoryUpdate {
  cu_name : option string;
  cu_color : option string;
  cu_icon : option string
}.

(** A document of [db.transactions].  The keys the handlers index with
    [t["..."]] are taken as present, and [type] holds a value of
    [TransactionType]; [category_name] and [note] are read with [t.get] and
    may be missing ([None] for [tx_category_name], [Missing] for [tx_note]).
    [note] is [Optional[str]] in the model, so a stored note may be [None]
    ([Null]). *)
Record Transaction : Type := mk_Transaction {
  tx_id : string;
  tx_amount : Qc;
  tx_category_id : string;
  tx_category_name : option string;
  tx_type : TransactionType;
  tx_date : datetime;
  tx_note : field string;
  tx_is_recurring : bool;
  tx_created_at : datetime
}.

Record TransactionUpdate : Type := mk_TransactionUpdate {
  tu_amount : option Qc;
  tu_category_id : option string;
  tu_category_name : option string;
  tu_type : option TransactionType;
  tu_date : option datetime;
  tu_note : option string;
  tu_is_recurring : option bool
}.

Record Reminder : Type := mk_Reminder {
  rem_id : string;
  rem_title : string;
  rem_message : option string;
  rem_date : datetime;
  rem_time : string;
  rem_is_recurring : bool;
  rem_is_enabled : bool;
  rem_created_at : datetime
}.

Record ReminderUpdate : Type := mk_ReminderUpdate {
  ru_title : option string;
  ru_message : option string;
  ru_date : option datetime;
  ru_time : option string;
  ru_is_recurring : option bool;
  ru_is_enabled : option bool
}.

(** The database: three collections in insertion order. *)
Record Db : Type := mk_Db {
  categories : list Category;
  transactions : list Transaction;
  reminders : list Reminder
}.

#[global] Instance datetime_eq_dec : EqDecision datetime.
Proof. solve_decision. Defined.
#[global] Instance TransactionType_eq_dec : EqDecision TransactionType.
Proof. solve_decision. Defined.
#[global] Instance field_eq_dec {A} `{EqDecision A} : EqDecision (field A).
Proof. solve_decision. Defined.
#[global] Instance Category_eq_dec : EqDecision Category.
Proof. solve_decision. Defined.
#[global] Instance Transaction_eq_dec : EqDecision Transaction.
Proof. solve_decision. Defined.
#[global] Instance Reminder_eq_dec : EqDecision Reminder.
Proof. solve_decision. Defined.

(** ** Record store adapter: the MongoDB operations the handlers call *)

Module Mongo.

(** [coll.find(q).to_list(n)]: the first [n] matching documents. *)
Definition find_to_list {A} (q : A -> bool) (n : nat) (coll : list A) : list A :=
  take n (List.filter q coll).

(** [coll.find_one(q)]: the first matching document. *)
Definition find_one {A} (q : A -> bool) (coll : list A) : option A :=
  List.find q coll.

(** [coll.insert_one(doc)] *)
Definition insert_one {A} (doc : A) (coll : list A) : list A :=
  coll ++ [doc].

Record UpdateResult : Type := mk_UpdateResult {
  matched_count : Z;
  modified_count : Z
}.

(** [coll.update_one(q, {"$set": ...})]: the first matching document is
    rewritten.  [matched_count] counts the document found; [modified_count]
    counts it only when the rewrite changed it (the server reports
    [nModified = 0] for a [$set] of the values the document already has). *)
Fixpoint update_one {A} `{EqDecision A} (q : A -> bool) (set : A -> A)
    (coll : list A) : UpdateResult * list A :=
  match coll with
  | [] => (mk_UpdateResult 0 0, [])
  | doc :: rest =>
      if q doc then
        (mk_UpdateResult 1 (if decide (set doc = doc) then 0 else 1),
         set doc :: rest)
      else
        let '(r, rest') := update_one q set rest in (r, doc :: rest')
  end.

End Mongo.

(** ** Analytics endpoints *)

Record MonthlyReport : Type := mk_MonthlyReport {
  report_year : Z;
  report_month : Z;
  total_income : Qc;
  total_expense : Qc;
  net_balance : Qc;
  savings_percentage : Qc;
  category_breakdown : gmap string Qc;
  transaction_count : nat
}.

(** [start_date] and [end_date] as both analytics handlers compute them. *)
Definition month_window (year month : Z) : outcome (datetime * datetime) :=
  start_date ← datetime_ymd year month 1;
  end_date ← (if month =? 12 then datetime_ymd (year + 1) 1 1
              else datetime_ymd year (month + 1) 1);
  mret (start_date, end_date).

(** The query [{"date": {"$gte": start_date, "$lt": end_date}}]. *)
Definition date_in_window (start_date end_date : datetime) (t : Transaction) : bool :=
  datetime_leb start_date (tx_date t) && datetime_ltb (tx_date t) end_date.

Definition has_type (ty : TransactionType) (t : Transaction) : bool :=
  bool_decide (tx_type t = ty).

(** [sum(t["amount"] for t in transactions if t["type"] == ty)] *)
Definition total_of (ty : TransactionType) (txs : list Transaction) : Qc :=
  Py.sum (map tx_amount (List.filter (has_type ty) txs)).

(** One turn of the loop that fills [category_breakdown]. *)
Definition breakdown_step (category_breakdown : gmap string Qc) (t : Transaction)
    : gmap string Qc :=
  if has_type EXPENSE t then
    let cat_name := default "Other" (tx_category_name t) in
    <[cat_name := (default 0%Qc (category_breakdown !! cat_name) + tx_amount t)%Qc]>
      category_breakdown
  else category_breakdown.

(** The documents [get_monthly_analytics] fetches. *)
Definition monthly_transactions (db : Db) (year month : Z) : outcome (list Transaction) :=
  w ← month_window year month;
  mret (Mongo.find_to_list (date_in_window w.1 w.2) 1000 (transactions db)).

(** The handler over exact amounts; [Float64.get_monthly_analytics] is the
    handler over doubles. *)
Definition get_monthly_analytics (db : Db) (year month : Z) : outcome MonthlyReport :=
  txs ← monthly_transactions db year month;
  let total_income := total_of INCOME txs in
  let total_expense := total_of EXPENSE txs in
  let net_balance := (total_income - total_expense)%Qc in
  let savings_percentage :=
    if Qc_gtb total_income 0 then (net_balance / total_income * Q2Qc 100)%Qc else 0%Qc in
  let category_breakdown := fold_left breakdown_step txs ∅ in
  mret {|
    report_year := year;
    report_month := month;
    total_income := total_income;
    total_expense := total_expense;
    net_balance := net_balance;
    savings_percentage := round1 savings_percentage;
    category_breakdown := category_breakdown;
    transaction_count := length txs
  |}.

Record MonthSummary : Type := mk_MonthSummary {
  ms_month : string;
  ms_year : Z;
  ms_income : Qc;
  ms_expense : Qc
}.

Definition month_names : list string :=
  ["Jan"; "Feb"; "Mar"; "Apr"; "May"; "Jun"; "Jul"; "Aug"; "Sep"; "Oct"; "Nov"; "Dec"].

Definition months_below_one (month : Z) : nat := Z.to_nat (1 - month).

(** [while month <= 0: month += 12; year -= 1] *)
Equations? roll_back (month year : Z) : Z * Z by wf (months_below_one month) lt :=
roll_back month year with Z_le_gt_dec month 0 := {
  | left _ => roll_back (month + 12) (year - 1)
  | right _ => (month, year) }.
Proof. unfold months_below_one. lia. Qed.

(** [month_names[month - 1]]; a negative index counts from the end. *)
Definition month_name (month : Z) : outcome string :=
  let i := month - 1 in
  let j := if i <? 0 then i + 12 else i in
  if (0 <=? j) && (j <? 12) then
    Returns (default "" (month_names !! Z.to_nat j))
  else Raises (IndexError "list index out of range").

(** The body of the loop of [get_last_six_months] for one [i]. *)
Definition six_months_entry (db : Db) (now : datetime) (i : Z) : outcome MonthSummary :=
  let '(month, year) := roll_back (dt_month now - i) (dt_year now) in
  w ← month_window year month;
  let txs := Mongo.find_to_list (date_in_window w.1 w.2) 1000 (transactions db) in
  name ← month_name month;
  mret {|
    ms_month := name;
    ms_year := year;
    ms_income := total_of INCOME txs;
    ms_expense := total_of EXPENSE txs
  |}.

(** [for i in range(5, -1, -1): ... months_data.append(...)] *)
Fixpoint six_months_loop (db : Db) (now : datetime) (range : list Z)
    (months_data : list MonthSummary) : outcome (list MonthSummary) :=
  match range with
  | [] => mret months_data
  | i :: range' =>
      e ← six_months_entry db now i;
      six_months_loop db now range' (months_data ++ [e])
  end.

(** [now] is the value [datetime.utcnow()] returns. *)
Definition get_last_six_months (db : Db) (now : datetime) : outcome (list MonthSummary) :=
  six_months_loop db now [5; 4; 3; 2; 1; 0] [].

(** ** Category endpoints *)

Definition DEFAULT_CATEGORIES : list (string * string * string) :=
  [ ("Food", "#EF4444", "🍔");
    ("Rent", "#8B5CF6", "🏠");
    ("Transport", "#3B82F6", "🚗");
    ("Shopping", "#EC4899", "🛍️");
    ("Bills", "#F59E0B", "📄");
    ("Entertainment", "#10B981", "🎬");
    ("Salary", "#22C55E", "💵");
    ("Investments", "#6366F1", "📈") ].

Section Seeding.

(** [uuid4 n] and [utcnow n] are what [uuid.uuid4()] and
    [datetime.utcnow()] return for the [n]-th model built by the request. *)
Variable uuid4 : nat -> string.
Variable utcnow : nat -> datetime.

(** The model [Category] built from the keys of [cat]. *)
Definition new_Category (n : nat) (cat : string * string * string) : Category :=
  {| cat_id := uuid4 n;
     cat_name := cat.1.1;
     cat_color := cat.1.2;
     cat_icon := cat.2;
     cat_created_at := utcnow n |}.

(** [for cat in DEFAULT_CATEGORIES: ... insert_one(category.dict())] *)
Fixpoint insert_defaults (n : nat) (defaults : list (string * string * string))
    (coll : list Category) : list Category :=
  match defaults with
  | [] => coll
  | cat :: rest =>
      insert_defaults (S n) rest (Mongo.insert_one (new_Category n cat) coll)
  end.

Definition get_categories (db : Db) : list Category * Db :=
  let found := Mongo.find_to_list (fun _ => true) 100 (categories db) in
  match found with
  | [] =>
      let db' := {| categories := insert_defaults 0 DEFAULT_CATEGORIES (categories db);
                    transactions := transactions db;
                    reminders := reminders db |} in
      (Mongo.find_to_list (fun _ => true) 100 (categories db'), db')
  | _ => (found, db)
  end.

End Seeding.

(** ** Updates *)

(** The items of [update_data]: the fields of the patch that are not [None],
    in the order of the model's fields. *)
Inductive CategorySet : Type :=
| SetCatName (v : string)
| SetCatColor (v : string)
| SetCatIcon (v : string).

Definition CategoryUpdate_items (p : CategoryUpdate) : list CategorySet :=
  omap id [SetCatName <$> cu_name p; SetCatColor <$> cu_color p; SetCatIcon <$> cu_icon p].

Definition Category_set1 (c : Category) (a : CategorySet) : Category :=
  match a with
  | SetCatName v => mk_Category (cat_id c) v (cat_color c) (cat_icon c) (cat_created_at c)
  | SetCatColor v => mk_Category (cat_id c) (cat_name c) v (cat_icon c) (cat_created_at c)
  | SetCatIcon v => mk_Category (cat_id c) (cat_name c) (cat_color c) v (cat_created_at c)
  end.

(** [{"$set": update_data}] applied to one document. *)
Definition Category_set (update_data : list CategorySet) (c : Category) : Category :=
  fold_left Category_set1 update_data c.

Definition update_category (db : Db) (category_id : string) (category : CategoryUpdate)
    : outcome Category * Db :=
  let update_data := CategoryUpdate_items category in
  match update_data with
  | [] => (Raises (HTTPException 400 "No data to update"), db)
  | _ =>
      let '(result, coll) :=
        Mongo.update_one (fun c => String.eqb (cat_id c) category_id)
          (Category_set update_data) (categories db) in
      let db' := {| categories := coll;
                    transactions := transactions db;
                    reminders := reminders db |} in
      if Mongo.modified_count result =? 0 then
        (Raises (HTTPException 404 "Category not found"), db')
      else
        match Mongo.find_one (fun c => String.eqb (cat_id c) category_id) coll with
        | Some updated => (Returns updated, db')
        | None => (Raises (TypeError "argument after ** must be a mapping"), db')
        end
  end.

Inductive TransactionSet : Type :=
| SetTxAmount (v : Qc)
| SetTxCategoryId (v : string)
| SetTxCategoryName (v : string)
| SetTxType (v : TransactionType)
| SetTxDate (v : datetime)
| SetTxNote (v : string)
| SetTxIsRecurring (v : bool).

Definition TransactionUpdate_items (p : TransactionUpdate) : list TransactionSet :=
  omap id [SetTxAmount <$> tu_amount p; SetTxCategoryId <$> tu_category_id p;
           SetTxCategoryName <$> tu_category_name p; SetTxType <$> tu_type p;
           SetTxDate <$> tu_date p; SetTxNote <$> tu_note p;
           SetTxIsRecurring <$> tu_is_recurring p].

Definition Transaction_set1 (t : Transaction) (a : TransactionSet) : Transaction :=
  match a with
  | SetTxAmount v =>
      mk_Transaction (tx_id t) v (tx_category_id t) (tx_category_name t) (tx_type t)
        (tx_date t) (tx_note t) (tx_is_recurring t) (tx_created_at t)
  | SetTxCategoryId v =>
      mk_Transaction (tx_id t) (tx_amount t) v (tx_category_name t) (tx_type t)
        (tx_date t) (tx_note t) (tx_is_recurring t) (tx_created_at t)
  | SetTxCategoryName v =>
      mk_Transaction (tx_id t) (tx_amount t) (tx_category_id t) (Some v) (tx_type t)
        (tx_date t) (tx_note t) (tx_is_recurring t) (tx_created_at t)
  | SetTxType v =>
      mk_Transaction (tx_id t) (tx_amount t) (tx_category_id t) (tx_category_name t) v
        (tx_date t) (tx_note t) (tx_is_recurring t) (tx_created_at t)
  | SetTxDate v =>
      mk_Transaction (tx_id t) (tx_amount t) (tx_category_id t) (tx_category_name t)
        (tx_type t) v (tx_note t) (tx_is_recurring t) (tx_created_at t)
  | SetTxNote v =>
      mk_Transaction (tx_id t) (tx_amount t) (tx_category_id t) (tx_category_name t)
        (tx_type t) (tx_date t) (Value v) (tx_is_recurring t) (tx_created_at t)
  | SetTxIsRecurring v =>
      mk_Transaction (tx_id t) (tx_amount t) (tx_category_id t) (tx_category_name t)
        (tx_type t) (tx_date t) (tx_note t) v (tx_created_at t)
  end.

Definition Transaction_set (update_data : list TransactionSet) (t : Transaction)
    : Transaction :=
  fold_left Transaction_set1 update_data t.

(** The model [Transaction] built from a document: the model's defaults
    fill the missing keys. *)
Definition Transaction_of_doc (doc : Transaction) : Transaction :=
  mk_Transaction (tx_id doc) (tx_amount doc) (tx_category_id doc)
    (Some (default "" (tx_category_name doc))) (tx_type doc) (tx_date doc)
    (match tx_note doc with Missing => Value "" | n => n end)
    (tx_is_recurring doc) (tx_created_at doc).

Definition update_transaction (db : Db) (transaction_id : string)
    (transaction : TransactionUpdate) : outcome Transaction * Db :=
  let update_data := TransactionUpdate_items transaction in
  match update_data with
  | [] => (Raises (HTTPException 400 "No data to update"), db)
  | _ =>
      let '(result, coll) :=
        Mongo.update_one (fun t => String.eqb (tx_id t) transaction_id)
          (Transaction_set update_data) (transactions db) in
      let db' := {| categories := categories db;
                    transactions := coll;
                    reminders := reminders db |} in
      if Mongo.modified_count result =? 0 then
        (Raises (HTTPException 404 "Transaction not found"), db')
      else
        match Mongo.find_one (fun t => String.eqb (tx_id t) transaction_id) coll with
        | Some updated => (Returns (Transaction_of_doc updated), db')
        | None => (Raises (TypeError "argument after ** must be a mapping"), db')
        end
  end.

Inductive ReminderSet : Type :=
| SetRemTitle (v : string)
| SetRemMessage (v : string)
| SetRemDate (v : datetime)
| SetRemTime (v : string)
| SetRemIsRecurring (v : bool)
| SetRemIsEnabled (v : bool).

Definition ReminderUpdate_items (p : ReminderUpdate) : list ReminderSet :=
  omap id [SetRemTitle <$> ru_title p; SetRemMessage <$> ru_message p;
           SetRemDate <$> ru_date p; SetRemTime <$> ru_time p;
           SetRemIsRecurring <$> ru_is_recurring p;
           SetRemIsEnabled <$> ru_is_enabled p].

Definition Reminder_set1 (r : Reminder) (a : ReminderSet) : Reminder :=
  match a with
  | SetRemTitle v =>
      mk_Reminder (rem_id r) v (rem_message r) (rem_date r) (rem_time r)
        (rem_is_recurring r) (rem_is_enabled r) (rem_created_at r)
  | SetRemMessage v =>
      mk_Reminder (rem_id r) (rem_title r) (Some v) (rem_date r) (rem_time r)
        (rem_is_recurring r) (rem_is_enabled r) (rem_created_at r)
  | SetRemDate v =>
      mk_Reminder (rem_id r) (rem_title r) (rem_message r) v (rem_time r)
        (rem_is_recurring r) (rem_is_enabled r) (rem_created_at r)
  | SetRemTime v =>
      mk_Reminder (rem_id r) (rem_title r) (rem_message r) (rem_date r) v
        (rem_is_recurring r) (rem_is_enabled r) (rem_created_at r)
  | SetRemIsRecurring v =>
      mk_Reminder (rem_id r) (rem_title r) (rem_message r) (rem_date r) (rem_time r)
        v (rem_is_enabled r) (rem_created_at r)
  | SetRemIsEnabled v =>
      mk_Reminder (rem_id r) (rem_title r) (rem_message r) (rem_date r) (rem_time r)
        (rem_is_recurring r) v (rem_created_at r)
  end.

Definition Reminder_set (update_data : list ReminderSet) (r : Reminder) : Reminder :=
  fold_left Reminder_set1 update_data r.

Definition update_reminder (db : Db) (reminder_id : string) (reminder : ReminderUpdate)
    : outcome Reminder * Db :=
  let update_data := ReminderUpdate_items reminder in
  match update_data with
  | [] => (Raises (HTTPException 400 "No data to update"), db)
  | _ =>
      let '(result, coll) :=
        Mongo.update_one (fun r => String.eqb (rem_id r) reminder_id)
          (Reminder_set update_data) (reminders db) in
      let db' := {| categories := categories db;
                    transactions := transactions db;
                    reminders := coll |} in
      if Mongo.modified_count result =? 0 then
        (Raises (HTTPException 404 "Reminder not found"), db')
      else
        match Mongo.find_one (fun r => String.eqb (rem_id r) reminder_id) coll with
        | Some updated => (Returns updated, db')
        | None => (Raises (TypeError "argument after ** must be a mapping"), db')
        end
  end.

(** ** Export endpoint *)

(** The double quote and the line feed. *)
Definition dquote : ascii := "034"%char.
Definition newline : ascii := "010"%char.

Fixpoint zeros (n : nat) : string :=
  match n with
  | O => ""
  | S n' => String "0"%char (zeros n')
  end.

(** A decimal number padded with zeros on the left up to [width] characters. *)
Definition zero_padded (width : nat) (n : Z) : string :=
  let digits := pretty n in
  zeros (width - String.length digits) +:+ digits.

(** [d.strftime("%Y-%m-%d")].  The year is written with four digits; the C
    library decides this for years before 1000, and glibc does not pad
    them. *)
Definition strftime_Y_m_d (d : datetime) : string :=
  zero_padded 4 (dt_year d) +:+ "-" +:+ zero_padded 2 (dt_month d) +:+ "-"
  +:+ zero_padded 2 (dt_day d).

(** [d.strftime("%Y%m%d")] *)
Definition strftime_Ymd (d : datetime) : string :=
  zero_padded 4 (dt_year d) +:+ zero_padded 2 (dt_month d) +:+ zero_padded 2 (dt_day d).

Record DateQuery : Type := mk_DateQuery {
  q_gte : option datetime;
  q_lte : option datetime
}.

Definition matches_query (q : DateQuery) (t : Transaction) : bool :=
  match q_gte q with Some lo => datetime_leb lo (tx_date t) | None => true end
  && match q_lte q with Some hi => datetime_leb (tx_date t) hi | None => true end.

(** The order [sort("date", -1)] asks for: latest first. *)
Definition date_desc (a b : Transaction) : Prop :=
  datetime_leb (tx_date b) (tx_date a) = true.

#[global] Instance date_desc_dec a b : Decision (date_desc a b).
Proof. unfold date_desc. apply _. Defined.

Record CsvExport : Type := mk_CsvExport {
  csv_content : string;
  filename : string
}.

Section Csv.

(** [float_str x] is the text an f-string gives for the float [x];
    [fromisoformat] is [datetime.fromisoformat]. *)
Variable float_str : Qc -> string.
Variable fromisoformat : string -> outcome datetime.

(** A bound of the date filter: skipped when the parameter is absent or
    empty, parsed otherwise with a trailing [Z] read as [+00:00]. *)
Definition parse_bound (param : option string) : outcome (option datetime) :=
  match param with
  | None => mret None
  | Some "" => mret None
  | Some s => d ← fromisoformat (str_replace "Z"%char "+00:00" s); mret (Some d)
  end.

(** The five values the f-string of a row interpolates, the last one with
    its quotes. *)
Definition csv_fields (t : Transaction) : outcome (list string) :=
  let date_str := strftime_Y_m_d (tx_date t) in
  raw ← match tx_note t with
        | Missing => Returns ""
        | Value s => Returns s
        | Null =>
            Raises (AttributeError "'NoneType' object has no attribute 'replace'")
        end;
  let note :=
    str_replace ","%char " "
      (str_replace dquote (String dquote (String dquote "")) raw) in
  mret [ date_str;
         TransactionType_value (tx_type t);
         default "Other" (tx_category_name t);
         float_str (tx_amount t);
         String dquote note +:+ String dquote "" ].

Definition csv_row (t : Transaction) : outcome string :=
  fields ← csv_fields t; mret (join "," fields).

(** [for t in transactions: ... csv_rows.append(...)] *)
Fixpoint csv_rows_loop (txs : list Transaction) (csv_rows : list string)
    : outcome (list string) :=
  match txs with
  | [] => mret csv_rows
  | t :: rest => row ← csv_row t; csv_rows_loop rest (csv_rows ++ [row])
  end.

(** [now] is the value [datetime.utcnow()] returns for the file name. *)
Definition export_csv (db : Db) (now : datetime) (start_date end_date : option string)
    : outcome CsvExport :=
  gte ← parse_bound start_date;
  lte ← parse_bound end_date;
  let query := mk_DateQuery gte lte in
  let txs :=
    take (10 * 1000) (merge_sort date_desc (List.filter (matches_query query) (transactions db))) in
  csv_rows ← csv_rows_loop txs ["Date,Type,Category,Amount,Notes"];
  mret {| csv_content := join (String newline "") csv_rows;
          filename := "expense_report_" +:+ strftime_Ymd now +:+ ".csv" |}.

End Csv.

(** ** Vocabulary of the specification *)

Definition first_of_month (year month : Z) : datetime :=
  mk_datetime year month 1 0.

(** December rolls into January of the next year. *)
Definition first_of_next_month (year month : Z) : datetime :=
  if month =? 12 then mk_datetime (year + 1) 1 1 0
  else mk_datetime year (month + 1) 1 0.

(** [date] lies in the half-open window [lo, hi). *)
Definition in_half_open (lo hi date : datetime) : Prop :=
  datetime_compare lo date <> Gt /\ datetime_compare date hi = Lt.

(** The month [i] months before month [month] of [year], as (year, month). *)
Definition months_ago (year month i : Z) : Z * Z :=
  let k := year * 12 + (month - 1) - i in
  (k / 12, k mod 12 + 1).

(** The three-letter abbreviation of a month of the year. *)
Definition month_abbrev (month : Z) : string :=
  match month with
  | 1 => "Jan" | 2 => "Feb" | 3 => "Mar" | 4 => "Apr" | 5 => "May" | 6 => "Jun"
  | 7 => "Jul" | 8 => "Aug" | 9 => "Sep" | 10 => "Oct" | 11 => "Nov" | 12 => "Dec"
  | _ => ""
  end.

(** The transactions of [db] dated in the window of a month, in stored order. *)
Definition transactions_of_month (db : Db) (year month : Z) : list Transaction :=
  List.filter
    (date_in_window (first_of_month year month) (first_of_next_month year month))
    (transactions db).

(** The record of a month computed over the first [cap] transactions of its
    window. *)
Definition month_summary (cap : nat) (db : Db) (ym : Z * Z) : MonthSummary :=
  let txs := take cap (transactions_of_month db ym.1 ym.2) in
  {| ms_month := month_abbrev ym.2;
     ms_year := ym.1;
     ms_income := total_of INCOME txs;
     ms_expense := total_of EXPENSE txs |}.

(** The key a transaction is grouped under when only a missing
    [category_name] is replaced by "Other". *)
Definition breakdown_key (t : Transaction) : string :=
  match tx_category_name t with
  | None => "Other"
  | Some name => name
  end.

(** The expense transactions of [txs] grouped under [key]. *)
Definition expense_group (key : string) (txs : list Transaction) : list Transaction :=
  List.filter (fun t => has_type EXPENSE t && String.eqb (breakdown_key t) key) txs.

(** One pass over a note: a double quote is doubled, a comma becomes a
    space, every other character is kept. *)
Fixpoint csv_escape (s : string) : string :=
  match s with
  | EmptyString => EmptyString
  | String c rest =>
      if Ascii.eqb c dquote then String dquote (String dquote (csv_escape rest))
      else if Ascii.eqb c ","%char then String " "%char (csv_escape rest)
      else String c (csv_escape rest)
  end.

(** The text of a note that is missing or a string. *)
Definition note_text (n : field string) : option string :=
  match n with
  | Missing => Some ""
  | Value s => Some s
  | Null => None
  end.

Definition name_color_icon (c : Category) : string * string * string :=
  (cat_name c, cat_color c, cat_icon c).

(** ** Sample data *)

Definition mid_june_2024 : datetime := mk_datetime 2024 6 15 0.
Definition mid_december_2024 : datetime := mk_datetime 2024 12 15 0.
Definition mid_march_2024 : datetime := mk_datetime 2024 3 15 0.

Definition sample_tx (amount : Z) (ty : TransactionType) (category_name : option string)
    (note : field string) (date : datetime) : Transaction :=
  mk_Transaction "t1" (Q2Qc (inject_Z amount)) "c1" category_name ty date note false date.

Definition db_of_transactions (txs : list Transaction) : Db := mk_Db [] txs [].

(** One expense of 50 created without a category name: the model stores "". *)
Definition db_unnamed_expense : Db :=
  db_of_transactions [sample_tx 50 EXPENSE (Some "") (Value "") mid_june_2024].

(** The end-to-end scenario of the specification. *)
Definition db_food_expense : Db :=
  db_of_transactions [sample_tx 50 EXPENSE (Some "Food") (Value "") mid_june_2024].

(** [n] transactions of amount 1 on one day, with identifiers t0, t1, ... *)
Definition numbered_tx (ty : TransactionType) (category_name : string) (date : datetime)
    (n : nat) : Transaction :=
  mk_Transaction ("t" +:+ pretty n) 1%Qc "c1" (Some category_name) ty date (Value "")
    false date.

Definition busy_day (ty : TransactionType) (category_name : string) (date : datetime)
    (n : nat) : list Transaction :=
  map (numbered_tx ty category_name date) (seq 0 n).

(** 1001 expenses of 1 in December 2024. *)
Definition db_busy_december : Db :=
  db_of_transactions (busy_day EXPENSE "Food" mid_december_2024 1001).

(** 1001 incomes of 1 in March 2024. *)
Definition db_busy_march : Db :=
  db_of_transactions (busy_day INCOME "Salary" mid_march_2024 1001).

(** The identifiers and clock readings used in the examples. *)
Definition sample_uuid4 (n : nat) : string := "id-" +:+ pretty n.
Definition sample_utcnow (_ : nat) : datetime := mid_june_2024.

Definition empty_db : Db := mk_Db [] [] [].

Definition numbered_category (n : nat) : Category :=
  mk_Category ("c" +:+ pretty n) "Misc" "#6366F1" "*" mid_june_2024.

(** 101 stored categories c0 ... c100. *)
Definition db_many_categories : Db :=
  mk_Db (map numbered_category (seq 0 101)) [] [].

Definition food_category : Category :=
  mk_Category "c1" "Food" "#EF4444" "*" mid_june_2024.

Definition lunch_transaction : Transaction :=
  mk_Transaction "t1" (Q2Qc 50) "c1" (Some "Food") EXPENSE mid_june_2024 (Value "lunch")
    false mid_june_2024.

Definition rent_reminder : Reminder :=
  mk_Reminder "r1" "Rent" (Some "pay the rent") mid_june_2024 "09:00" false true
    mid_june_2024.

(** One record in each collection. *)
Definition db_one_of_each : Db :=
  mk_Db [food_category] [lunch_transaction] [rent_reminder].

(** The note of the escaping example: He said, quote, hi, quote, comma, now. *)
Definition quoted_note : string :=
  "He said " +:+ String dquote "hi" +:+ String dquote ", now".

Definition quoted_note_field : string :=
  String dquote "He said " +:+ String dquote (String dquote "hi")
  +:+ String dquote (String dquote "  now") +:+ String dquote "".

Definition noted_transaction : Transaction :=
  mk_Transaction "t2" (Q2Qc 50) "c1" None EXPENSE mid_june_2024 (Value quoted_note)
    false mid_june_2024.

Definition unnamed_transaction : Transaction :=
  mk_Transaction "t3" (Q2Qc 50) "c1" (Some "") EXPENSE mid_june_2024 (Value "lunch")
    false mid_june_2024.

Definition fifty_str (_ : Qc) : string := "50.0".

(** * The other endpoints *)

(** ** Further operations of the record store *)

Module Collection.

(** [coll.delete_one(q)]: the first matching document is removed; the count
    is the number of documents removed. *)
Fixpoint delete_one {A} (q : A -> bool) (coll : list A) : Z * list A :=
  match coll with
  | [] => (0, [])
  | doc :: rest =>
      if q doc then (1, rest)
      else let '(n, rest') := delete_one q rest in (n, doc :: rest')
  end.

(** [coll.delete_many({})]: every document is removed. *)
Definition delete_many_all {A} (coll : list A) : Z * list A :=
  (Z.of_nat (length coll), []).

End Collection.

(** ** Creation models *)

Record CategoryCreate : Type := mk_CategoryCreate {
  cc_name : string;
  cc_color : option string;
  cc_icon : option string
}.

Record TransactionCreate : Type := mk_TransactionCreate {
  tc_amount : Qc;
  tc_category_id : string;
  tc_category_name : option string;
  tc_type : TransactionType;
  tc_date : datetime;
  tc_note : option string;
  tc_is_recurring : bool
}.

Record ReminderCreate : Type := mk_ReminderCreate {
  rc_title : string;
  rc_message : option string;
  rc_date : datetime;
  rc_time : string;
  rc_is_recurring : bool;
  rc_is_enabled : bool
}.

(** An [Optional[str]] field with a default, as the model reads it from a
    request body: a key left out takes the default, an explicit null is
    [None]. *)
Definition optional_with_default (default_value : string) (given : field string)
    : option string :=
  match given with
  | Missing => Some default_value
  | Null => None
  | Value v => Some v
  end.

(** [CategoryCreate] read from a body with the keys [name], [color], [icon]. *)
Definition CategoryCreate_of_body (name : string) (color icon : field string)
    : CategoryCreate :=
  {| cc_name := name;
     cc_color := optional_with_default "#6366F1" color;
     cc_icon := optional_with_default "💰" icon |}.

Section Creation.

(** [uuid4 n] and [utcnow n] as in the seeding: the values drawn for the
    [n]-th model the request builds. *)
Variable uuid4 : nat -> string.
Variable utcnow : nat -> datetime.

(** The model [Category] built from [category.dict()]: [color] and [icon]
    are plain [str] fields there, so a [None] fails validation (pydantic's
    [ValidationError] is a [ValueError]). *)
Definition Category_of_create (category : CategoryCreate) : outcome Category :=
  match cc_color category, cc_icon category with
  | Some color, Some icon =>
      Returns (new_Category uuid4 utcnow 0 (cc_name category, color, icon))
  | _, _ => Raises (ValueError "none is not an allowed value")
  end.

Definition create_category (db : Db) (category : CategoryCreate) : outcome Category * Db :=
  match Category_of_create category with
  | Returns cat_obj =>
      (Returns cat_obj,
       {| categories := Mongo.insert_one cat_obj (categories db);
          transactions := transactions db;
          reminders := reminders db |})
  | Raises e => (Raises e, db)
  end.

(** The model [Transaction] built from [transaction.dict()]: [category_name]
    is a plain [str] field, [note] stays optional. *)
Definition Transaction_of_create (transaction : TransactionCreate) : outcome Transaction :=
  match tc_category_name transaction with
  | Some category_name =>
      Returns
        {| tx_id := uuid4 0;
           tx_amount := tc_amount transaction;
           tx_category_id := tc_category_id transaction;
           tx_category_name := Some category_name;
           tx_type := tc_type transaction;
           tx_date := tc_date transaction;
           tx_note := match tc_note transaction with
                      | Some note => Value note
                      | None => Null
                      end;
           tx_is_recurring := tc_is_recurring transaction;
           tx_created_at := utcnow 0 |}
  | None => Raises (ValueError "none is not an allowed value")
  end.

Definition create_transaction (db : Db) (transaction : TransactionCreate)
    : outcome Transaction * Db :=
  match Transaction_of_create transaction with
  | Returns trans_obj =>
      (Returns trans_obj,
       {| categories := categories db;
          transactions := Mongo.insert_one trans_obj (transactions db);
          reminders := reminders db |})
  | Raises e => (Raises e, db)
  end.

(** The model [Reminder] built from [reminder.dict()]. *)
Definition Reminder_of_create (reminder : ReminderCreate) : Reminder :=
  {| rem_id := uuid4 0;
     rem_title := rc_title reminder;
     rem_message := rc_message reminder;
     rem_date := rc_date reminder;
     rem_time := rc_time reminder;
     rem_is_recurring := rc_is_recurring reminder;
     rem_is_enabled := rc_is_enabled reminder;
     rem_created_at := utcnow 0 |}.

Definition create_reminder (db : Db) (reminder : ReminderCreate) : Reminder * Db :=
  let rem_obj := Reminder_of_create reminder in
  (rem_obj,
   {| categories := categories db;
      transactions := transactions db;
      reminders := Mongo.insert_one rem_obj (reminders db) |}).

End Creation.

(** ** Deletion *)

Definition delete_category (db : Db) (category_id : string) : outcome string * Db :=
  let '(deleted_count, coll) :=
    Collection.delete_one (fun c => String.eqb (cat_id c) category_id) (categories db) in
  let db' := {| categories := coll;
                transactions := transactions db;
                reminders := reminders db |} in
  if deleted_count =? 0 then (Raises (HTTPException 404 "Category not found"), db')
  else (Returns "Category deleted successfully", db').

Definition delete_transaction (db : Db) (transaction_id : string) : outcome string * Db :=
  let '(deleted_count, coll) :=
    Collection.delete_one (fun t => String.eqb (tx_id t) transaction_id)
      (transactions db) in
  let db' := {| categories := categories db;
                transactions := coll;
                reminders := reminders db |} in
  if deleted_count =? 0 then (Raises (HTTPException 404 "Transaction not found"), db')
  else (Returns "Transaction deleted successfully", db').

Definition delete_reminder (db : Db) (reminder_id : string) : outcome string * Db :=
  let '(deleted_count, coll) :=
    Collection.delete_one (fun r => String.eqb (rem_id r) reminder_id) (reminders db) in
  let db' := {| categories := categories db;
                transactions := transactions db;
                reminders := coll |} in
  if deleted_count =? 0 then (Raises (HTTPException 404 "Reminder not found"), db')
  else (Returns "Reminder deleted successfully", db').

(** [reset_all_data]: the three collections are emptied, transactions first. *)
Definition reset_all_data (db : Db) : string * Db :=
  let '(_, txs) := Collection.delete_many_all (transactions db) in
  let '(_, cats) := Collection.delete_many_all (categories db) in
  let '(_, rems) := Collection.delete_many_all (reminders db) in
  ("All data has been reset",
   {| categories := cats; transactions := txs; reminders := rems |}).

(** ** Listings *)

(** The query of [get_transactions]: each part is there when its parameter
    was given and not empty. *)
Record TransactionQuery : Type := mk_TransactionQuery {
  tq_type : option TransactionType;
  tq_category_id : option string;
  tq_date : DateQuery
}.

Definition matches_transaction_query (q : TransactionQuery) (t : Transaction) : bool :=
  match tq_type q with Some ty => has_type ty t | None => true end
  && match tq_category_id q with
     | Some c => String.eqb (tx_category_id t) c
     | None => true
     end
  && matches_query (tq_date q) t.

(** [if category_id:] an absent or empty parameter adds nothing to the query. *)
Definition given_text (param : option string) : option string :=
  match param with
  | None => None
  | Some "" => None
  | Some s => Some s
  end.

Section Listing.

Variable fromisoformat : string -> outcome datetime.

Definition get_transactions (db : Db) (type : option TransactionType)
    (category_id start_date end_date : option string) : outcome (list Transaction) :=
  gte ← parse_bound fromisoformat start_date;
  lte ← parse_bound fromisoformat end_date;
  let query := mk_TransactionQuery type (given_text category_id) (mk_DateQuery gte lte) in
  let found :=
    take 1000
      (merge_sort date_desc
         (List.filter (matches_transaction_query query) (transactions db))) in
  mret (map Transaction_of_doc found).

End Listing.

(** The order [sort("date", 1)] asks for: earliest first. *)
Definition reminder_date_asc (a b : Reminder) : Prop :=
  datetime_leb (rem_date a) (rem_date b) = true.

#[global] Instance reminder_date_asc_dec a b : Decision (reminder_date_asc a b).
Proof. unfold reminder_date_asc. apply _. Defined.

Definition get_reminders (db : Db) : list Reminder :=
  take 100 (merge_sort reminder_date_asc (List.filter (fun _ => true) (reminders db))).

(** ** Further vocabulary and sample data *)

(** The number of times a character occurs in a text. *)
Fixpoint count_char (c : ascii) (s : string) : nat :=
  match s with
  | EmptyString => O
  | String x rest => (if Ascii.eqb x c then 1 else 0) + count_char c rest
  end.

(** The date lies in month [month] of year [year]. *)
Definition in_calendar_month (year month : Z) (t : Transaction) : bool :=
  (dt_year (tx_date t) =? year) && (dt_month (tx_date t) =? month).

Definition sample_fromisoformat (s : string) : outcome datetime :=
  if String.eqb s "2024-06-01T00:00:00" then Returns (mk_datetime 2024 6 1 0)
  else if String.eqb s "2024-07-01T00:00:00" then Returns (mk_datetime 2024 7 1 0)
  else Raises (ValueError "Invalid isoformat string").


Definition null_note_transaction : Transaction :=
  mk_Transaction "t4" (Q2Qc 20) "c1" (Some "Food") EXPENSE mid_june_2024 Null
    false mid_june_2024.

Definition db_null_note : Db :=
  mk_Db [] [lunch_transaction; null_note_transaction] [].

(** * The report in the arithmetic of the code *)

(** [amount] is a [float]: an IEEE 754 binary64 number.  This module embeds
    [get_monthly_analytics] once more with the amounts as the doubles they
    are, for the properties that depend on rounding, overflow, NaN or the
    division by zero.  [PrimFloat] is binary64 with round-to-nearest-even. *)
Module Float64.
Import PrimFloat SpecFloat FloatOps.

(** The keys of a transaction document that [get_monthly_analytics] reads:
    [type], [date], [category_name] (may be missing) and [amount]. *)
Record Doc : Type := mk_Doc {
  doc_type : TransactionType;
  doc_date : datetime;
  doc_category_name : option string;
  doc_amount : float
}.

(** [sum(...)]: starts from the integer 0, which adds like the double +0.0,
    and adds from left to right.  This is the summation of CPython up to
    3.11; from 3.12 on [sum] carries a compensation term, which can change
    the last bit of a total.  The totals of the sample data below are the
    same under both. *)
Definition sum (xs : list float) : float := fold_left PrimFloat.add xs 0%float.

(** [x / y]: [ZeroDivisionError] when the divisor is zero, of either sign. *)
Definition truediv (x y : float) : outcome float :=
  if (y =? 0)%float then Raises (ZeroDivisionError "float division by zero")
  else Returns (x / y)%float.

(** Nearest integer to [n / d], ties to the even one, for [0 <= n], [0 < d]. *)
Definition round_half_even_div (n d : Z) : Z :=
  let q := n / d in
  match 2 * (n mod d) ?= d with
  | Lt => q
  | Gt => q + 1
  | Eq => if Z.even q then q else q + 1
  end.

(** A decoded double that is a zero, a finite number or an infinity of sign
    [s]. *)
Definition signed (s : bool) (x : spec_float) : Prop :=
  match x with
  | S754_nan => False
  | S754_zero s' | S754_infinity s' | S754_finite s' _ _ => s' = s
  end.

(** A decoded double that is not NaN and not below zero: a zero of either
    sign, a positive finite number or the positive infinity. *)
Definition nonneg (x : spec_float) : Prop :=
  match x with
  | S754_nan => False
  | S754_zero _ => True
  | S754_infinity s | S754_finite s _ _ => s = false
  end.

(** The double of an integer in 0..2^53, which is exact. *)
Definition of_small_Z (k : Z) : float := of_uint63 (Uint63.of_Z k).

(** [round(x, 1)] on a double.  Zeros, infinities and NaN round to
    themselves.  Otherwise the exact value [m * 2^e] of [x] is rounded to the
    nearest multiple of 1/10, ties to the even one, and the result is the
    double nearest to that decimal, with the sign of [x].  The decimal is
    [tenths / 10]; [tenths] up to 2^53 is a double and the division rounds
    correctly.  Beyond that [x] is 2^49 or more, its neighbours are at least
    1/8 away and the decimal is within 1/20 of it, so the nearest double is
    [x] itself. *)
Definition round1 (x : float) : float :=
  match Prim2SF x with
  | S754_finite negative m e =>
      let tenths :=
        if 0 <=? e then Z.pos m * 10 * 2 ^ e
        else round_half_even_div (Z.pos m * 10) (2 ^ (- e)) in
      if tenths <=? 2 ^ 53 then
        let r := (of_small_Z tenths / 10)%float in
        if negative then (- r)%float else r
      else x
  | _ => x
  end.

Record MonthlyReport : Type := mk_MonthlyReport {
  report_year : Z;
  report_month : Z;
  total_income : float;
  total_expense : float;
  net_balance : float;
  savings_percentage : float;
  category_breakdown : gmap string float;
  transaction_count : nat
}.

Definition date_in_window (start_date end_date : datetime) (t : Doc) : bool :=
  datetime_leb start_date (doc_date t) && datetime_ltb (doc_date t) end_date.

Definition has_type (ty : TransactionType) (t : Doc) : bool :=
  bool_decide (doc_type t = ty).

(** [sum(t["amount"] for t in transactions if t["type"] == ty)] *)
Definition total_of (ty : TransactionType) (txs : list Doc) : float :=
  sum (map doc_amount (List.filter (has_type ty) txs)).

(** One turn of the loop that fills [category_breakdown]. *)
Definition breakdown_step (category_breakdown : gmap string float) (t : Doc)
    : gmap string float :=
  if has_type EXPENSE t then
    let cat_name := default "Other" (doc_category_name t) in
    <[cat_name := (default 0%float (category_breakdown !! cat_name) + doc_amount t)%float]>
      category_breakdown
  else category_breakdown.

(** The documents the handler fetches from the collection [transactions]. *)
Definition monthly_transactions (transactions : list Doc) (year month : Z)
    : outcome (list Doc) :=
  w ← month_window year month;
  mret (Mongo.find_to_list (date_in_window w.1 w.2) 1000 transactions).

Definition get_monthly_analytics (transactions : list Doc) (year month : Z)
    : outcome MonthlyReport :=
  txs ← monthly_transactions transactions year month;
  let total_income := total_of INCOME txs in
  let total_expense := total_of EXPENSE txs in
  let net_balance := (total_income - total_expense)%float in
  savings_percentage ←
    (if (0 <? total_income)%float then
       ratio ← truediv net_balance total_income; mret (ratio * 100)%float
     else mret 0%float);
  let category_breakdown := fold_left breakdown_step txs ∅ in
  mret {|
    report_year := year;
    report_month := month;
    total_income := total_income;
    total_expense := total_expense;
    net_balance := net_balance;
    savings_percentage := round1 savings_percentage;
    category_breakdown := category_breakdown;
    transaction_count := length txs
  |}.

(** ** Vocabulary of the specification *)

(** The key a document is grouped under when only a missing
    [category_name] is replaced by "Other". *)
Definition breakdown_key (t : Doc) : string :=
  match doc_category_name t with
  | None => "Other"
  | Some name => name
  end.


Definition expense_group (key : string) (txs : list Doc) : list Doc :=
  List.filter (fun t => has_type EXPENSE t && String.eqb (breakdown_key t) key) txs.


(** ** Sample data *)

Set Warnings "-inexact-float".

Definition june_doc (ty : TransactionType) (category_name : string) (amount : float)
    : Doc :=
  mk_Doc ty mid_june_2024 (Some category_name) amount.

(** An income of 80 and an expense of 29. *)
Definition docs_80_29 : list Doc :=
  [june_doc INCOME "Salary" 80; june_doc EXPENSE "Food" 29].

(** An income of 2000 and an expense of 1999. *)
Definition docs_2000_1999 : list Doc :=
  [june_doc INCOME "Salary" 2000; june_doc EXPENSE "Rent" 1999].

(** Two incomes of 1e308: their sum is beyond the largest double. *)
Definition docs_overflow : list Doc :=
  [june_doc INCOME "Salary" 1e308; june_doc INCOME "Salary" 1e308].

(** One income of -100. *)
Definition docs_negative_income : list Doc :=
  [june_doc INCOME "Salary" (-100)].


End Float64.

(** * Properties *)

(** ** Dates and windows *)

Lemma datetime_ymd_first year month :
  1 <= year <= 9999 -> 1 <= month <= 12 ->
  datetime_ymd year month 1 = Returns (mk_datetime year month 1 0).
Proof.
  intros Hy Hm. unfold datetime_ymd, fits_C_int, MINYEAR, MAXYEAR.
  replace ((- 2 ^ 31 <=? year) && (year <? 2 ^ 31)) with true
    by (symmetry; apply andb_true_iff; lia).
  replace ((- 2 ^ 31 <=? month) && (month <? 2 ^ 31)) with true
    by (symmetry; apply andb_true_iff; lia).
  replace ((- 2 ^ 31 <=? 1) && (1 <? 2 ^ 31)) with true by reflexivity.
  cbn [andb negb].
  replace ((1 <=? year) && (year <=? 9999)) with true by (symmetry; apply andb_true_iff; lia).
  replace ((1 <=? month) && (month <=? 12)) with true by (symmetry; apply andb_true_iff; lia).
  assert (Hd : 28 <= days_in_month year month).
  { unfold days_in_month. repeat case_match; lia. }
  replace ((1 <=? 1) && (1 <=? days_in_month year month)) with true
    by (symmetry; apply andb_true_iff; lia).
  reflexivity.
Qed.

Lemma month_window_ok year month :
  1 <= year <= 9999 -> 1 <= month <= 12 -> ~ (year = 9999 /\ month = 12) ->
  month_window year month =
    Returns (first_of_month year month, first_of_next_month year month).
Proof.
  intros Hy Hm Hlast. unfold month_window, first_of_month, first_of_next_month.
  rewrite (datetime_ymd_first year month) by lia. cbn.
  destruct (month =? 12) eqn:E.
  - apply Z.eqb_eq in E. assert (year <> 9999) by (intros ->; apply Hlast; split; [reflexivity | exact E]).
    rewrite datetime_ymd_first by lia. reflexivity.
  - apply Z.eqb_neq in E. rewrite datetime_ymd_first by lia. reflexivity.
Qed.

Lemma datetime_leb_spec a b : datetime_leb a b = true <-> datetime_compare a b <> Gt.
Proof. unfold datetime_leb. destruct (datetime_compare a b); split; congruence. Qed.

Lemma datetime_ltb_spec a b : datetime_ltb a b = true <-> datetime_compare a b = Lt.
Proof. unfold datetime_ltb. destruct (datetime_compare a b); split; congruence. Qed.

Lemma date_in_window_spec lo hi t :
  date_in_window lo hi t = true <-> in_half_open lo hi (tx_date t).
Proof.
  unfold date_in_window, in_half_open.
  rewrite andb_true_iff, datetime_leb_spec, datetime_ltb_spec. reflexivity.
Qed.

Lemma datetime_compare_Lt a b :
  datetime_compare a b = Lt <->
  dt_year a < dt_year b \/
  (dt_year a = dt_year b /\
   (dt_month a < dt_month b \/
    (dt_month a = dt_month b /\
     (dt_day a < dt_day b \/ (dt_day a = dt_day b /\ dt_usec a < dt_usec b))))).
Proof.
  unfold datetime_compare.
  destruct (Z.compare_spec (dt_year a) (dt_year b));
    destruct (Z.compare_spec (dt_month a) (dt_month b));
    destruct (Z.compare_spec (dt_day a) (dt_day b));
    destruct (Z.compare_spec (dt_usec a) (dt_usec b));
    split; intros; try discriminate; try reflexivity; lia.
Qed.

Lemma datetime_compare_not_Gt a b :
  datetime_compare a b <> Gt <->
  dt_year a < dt_year b \/
  (dt_year a = dt_year b /\
   (dt_month a < dt_month b \/
    (dt_month a = dt_month b /\
     (dt_day a < dt_day b \/ (dt_day a = dt_day b /\ dt_usec a <= dt_usec b))))).
Proof.
  unfold datetime_compare.
  destruct (Z.compare_spec (dt_year a) (dt_year b));
    destruct (Z.compare_spec (dt_month a) (dt_month b));
    destruct (Z.compare_spec (dt_day a) (dt_day b));
    destruct (Z.compare_spec (dt_usec a) (dt_usec b));
    split; intros; try congruence; try lia.
Qed.

(** For a date a [datetime] can hold, lying in the window of a month is
    being a date of that calendar month. *)
Lemma in_month_window_iff year month d :
  1 <= month <= 12 -> valid_datetime d ->
  in_half_open (first_of_month year month) (first_of_next_month year month) d
  <-> dt_year d = year /\ dt_month d = month.
Proof.
  intros Hm (Hy & Hmo & Hd & Hu).
  unfold in_half_open. rewrite datetime_compare_not_Gt, datetime_compare_Lt.
  unfold first_of_month, first_of_next_month.
  destruct (month =? 12) eqn:E; cbn;
    [apply Z.eqb_eq in E | apply Z.eqb_neq in E]; lia.
Qed.
(** ** Monthly report *)

Lemma monthly_transactions_ok db year month w :
  month_window year month = Returns w ->
  monthly_transactions db year month =
    Returns (Mongo.find_to_list (date_in_window w.1 w.2) 1000 (transactions db)).
Proof. intros Hw. unfold monthly_transactions. rewrite Hw. reflexivity. Qed.

(** *** Category breakdown *)

Lemma breakdown_key_default t :
  default "Other" (tx_category_name t) = breakdown_key t.
Proof. unfold breakdown_key. destruct (tx_category_name t); reflexivity. Qed.

(** The loop adds the expenses of each key, in order, to what the mapping
    held for that key. *)
Lemma breakdown_fold_lookup key txs (m : gmap string Qc) :
  fold_left breakdown_step txs m !! key =
    match expense_group key txs with
    | [] => m !! key
    | g => Some (fold_left Qcplus (map tx_amount g) (default 0%Qc (m !! key)))
    end.
Proof.
  revert m. induction txs as [|t txs IH]; intros m; [reflexivity |].
  cbn [fold_left]. rewrite IH. unfold expense_group. cbn [List.filter].
  unfold breakdown_step. rewrite breakdown_key_default.
  destruct (has_type EXPENSE t) eqn:Ht; cbn [andb]; [| reflexivity].
  destruct (String.eqb (breakdown_key t) key) eqn:Hk.
  - apply String.eqb_eq in Hk. subst key. rewrite lookup_insert_eq. cbn.
    destruct (List.filter _ txs); reflexivity.
  - apply String.eqb_neq in Hk. rewrite lookup_insert_ne by exact Hk.
    reflexivity.
Qed.

(** Claim C2, with the default as the code has it: [category_breakdown]
    holds, for each key, the sum of the amounts of the fetched expense
    transactions grouped under that key, and no key for which there is none;
    income transactions never contribute.  A transaction is grouped under
    its [category_name], and under "Other" when the document has no
    [category_name]; an empty [category_name] is a key like any other. *)
Theorem category_breakdown_groups db year month w :
  month_window year month = Returns w ->
  exists txs r,
    monthly_transactions db year month = Returns txs /\
    get_monthly_analytics db year month = Returns r /\
    forall key,
      category_breakdown r !! key =
        match expense_group key txs with
        | [] => None
        | g => Some (Py.sum (map tx_amount g))
        end.
Proof.
  intros Hw. unfold get_monthly_analytics.
  rewrite (monthly_transactions_ok db year month w Hw). cbn.
  do 2 eexists. split; [reflexivity |]. split; [reflexivity |].
  intros key. cbn. rewrite breakdown_fold_lookup. rewrite lookup_empty.
  reflexivity.
Qed.

Lemma category_breakdown_groups_witness :
  exists txs r,
    monthly_transactions db_food_expense 2024 6 = Returns txs /\
    get_monthly_analytics db_food_expense 2024 6 = Returns r /\
    forall key,
      category_breakdown r !! key =
        match expense_group key txs with
        | [] => None
        | g => Some (Py.sum (map tx_amount g))
        end.
Proof.
  apply (category_breakdown_groups db_food_expense 2024 6
           (first_of_month 2024 6, first_of_next_month 2024 6)).
  reflexivity.
Defined.

(** An expense of 50 stored with the empty [category_name]: the breakdown
    has no key "Other" and holds 50 under the empty key. *)
Lemma empty_category_name_not_under_Other :
  exists r,
    get_monthly_analytics db_unnamed_expense 2024 6 = Returns r /\
    category_breakdown r !! "Other" = None /\
    category_breakdown r !! "" = Some (Q2Qc 50).
Proof.
  eexists. split; [reflexivity |]. split.
  - vm_compute. reflexivity.
  - cbn. rewrite breakdown_fold_lookup. cbn. f_equal; apply Qc_is_canon; reflexivity.
Qed.

(** The end-to-end scenario: one expense of 50 under "Food" on
    15 June 2024, reported for June 2024. *)
Example june_2024_food_report :
  exists r,
    get_monthly_analytics db_food_expense 2024 6 = Returns r /\
    total_expense r = Q2Qc 50 /\ total_income r = 0%Qc /\
    net_balance r = Q2Qc (-50) /\ savings_percentage r = 0%Qc /\
    category_breakdown r = {[ "Food" := Q2Qc 50 ]} /\
    transaction_count r = 1%nat.
Proof.
  eexists. split; [reflexivity |]. cbn.
  repeat split; try (apply Qc_is_canon; reflexivity).
Qed.

(** ** Doubles *)

(** Facts about binary64 arithmetic, from the specification of the
    primitive operations ([FloatAxioms]) and the reference implementation of
    rounding ([SpecFloat]). *)
Section Doubles.
Import PrimFloat SpecFloat FloatOps FloatAxioms.

Variables prec emax : Z.

Lemma signed_not_nan s x : Float64.signed s x -> x <> S754_nan.
Proof. destruct x; cbn; [discriminate .. | contradiction | discriminate]. Qed.

Lemma signed_false_nonneg x : Float64.signed false x -> Float64.nonneg x.
Proof. destruct x; cbn; auto. Qed.

Lemma iter_pos_invariant {A} (P : A -> Prop) (f : A -> A) :
  (forall x, P x -> P (f x)) -> forall n x, P x -> P (iter_pos f n x).
Proof.
  intros Hf. induction n as [n IH | n IH |]; intros x Hx; cbn; auto.
Qed.

Lemma shr_1_nonneg mrs : 0 <= shr_m mrs -> 0 <= shr_m (shr_1 mrs).
Proof.
  destruct mrs as [m r s]. destruct m as [| [p | p |] | p]; cbn; lia.
Qed.

Lemma shr_fexp_nonneg m e l :
  0 <= m -> 0 <= shr_m (shr_fexp prec emax m e l).1.
Proof.
  intros Hm. unfold shr_fexp, shr.
  assert (H0 : 0 <= shr_m (shr_record_of_loc m l)).
  { destruct l as [| []]; exact Hm. }
  destruct (fexp prec emax (Zdigits2 m + e) - e); cbn [fst]; try exact H0.
  apply (iter_pos_invariant (fun mrs => 0 <= shr_m mrs)); [exact shr_1_nonneg | exact H0].
Qed.

Lemma round_nearest_even_nonneg m l : 0 <= m -> 0 <= round_nearest_even m l.
Proof.
  intros Hm. destruct l as [| []]; cbn; try lia. destruct (Z.even m); lia.
Qed.

(** Rounding a non-negative mantissa gives a zero, a finite number or an
    infinity of the sign asked for, never NaN. *)
Lemma binary_round_aux_signed s m e l :
  0 <= m -> Float64.signed s (binary_round_aux prec emax s m e l).
Proof.
  intros Hm. unfold binary_round_aux.
  pose proof (shr_fexp_nonneg m e l Hm) as H1.
  destruct (shr_fexp prec emax m e l) as [mrs' e']. cbn [fst] in H1.
  pose proof (shr_fexp_nonneg _ e' loc_Exact
                (round_nearest_even_nonneg _ (loc_of_shr_record mrs') H1)) as H2.
  destruct (shr_fexp prec emax _ e' loc_Exact) as [mrs'' e'']. cbn [fst] in H2.
  destruct (shr_m mrs'') as [| p | p]; [reflexivity | | lia].
  destruct (e'' <=? emax - prec); reflexivity.
Qed.

Lemma binary_round_signed s m e : Float64.signed s (binary_round prec emax s m e).
Proof.
  unfold binary_round. destruct (shl_align _ _ _) as [mz ez].
  apply binary_round_aux_signed. lia.
Qed.

Lemma binary_normalize_not_nan m e : binary_normalize prec emax m e false <> S754_nan.
Proof.
  destruct m as [| p | p]; cbn; [discriminate | |];
    eapply signed_not_nan, binary_round_signed.
Qed.

Lemma SFadd_nonneg x y :
  Float64.nonneg x -> Float64.nonneg y -> Float64.nonneg (SFadd prec emax x y).
Proof.
  destruct x as [sx | sx | | sx mx ex], y as [sy | sy | | sy my ey]; cbn;
    try contradiction; try (intros; subst; exact I || reflexivity).
  - intros _ _. destruct sx, sy; exact I.
  - intros -> ->. apply signed_false_nonneg.
    unfold binary_normalize. cbn [cond_Zopp Z.add].
    apply binary_round_signed.
Qed.

Lemma SFsub_not_nan sx mx ex y :
  y <> S754_nan -> SFsub prec emax (S754_finite sx mx ex) y <> S754_nan.
Proof.
  destruct y as [sy | sy | | sy my ey]; cbn; try discriminate; [congruence |].
  intros _. apply binary_normalize_not_nan.
Qed.

Lemma SFdiv_not_nan x sy my ey :
  x <> S754_nan -> SFdiv prec emax x (S754_finite sy my ey) <> S754_nan.
Proof.
  destruct x as [sx | sx | | sx mx ex]; cbn [SFdiv]; try discriminate; [congruence |].
  intros _. unfold SFdiv_core_binary.
  set (m' := match _ - _ - _ with 0 => Z.pos mx | Z.pos _ => _ | Z.neg _ => 0 end).
  assert (Hm' : 0 <= m').
  { unfold m'. destruct (_ - _ - _); [lia | | lia].
    apply Z.shiftl_nonneg. lia. }
  pose proof (Z.div_pos m' (Z.pos my) Hm' ltac:(lia)) as Hq.
  unfold Z.div in Hq. destruct (Z.div_eucl m' (Z.pos my)) as [q r].
  eapply signed_not_nan, binary_round_aux_signed, Hq.
Qed.

Lemma SFmul_not_nan x sy my ey :
  x <> S754_nan -> SFmul prec emax x (S754_finite sy my ey) <> S754_nan.
Proof.
  destruct x as [sx | sx | | sx mx ex]; cbn [SFmul]; try discriminate; [congruence |].
  intros _. eapply signed_not_nan, binary_round_aux_signed. lia.
Qed.

Lemma SFopp_not_nan x : x <> S754_nan -> SFopp x <> S754_nan.
Proof. destruct x; cbn; congruence. Qed.

End Doubles.

Section DoubleReport.
Import PrimFloat SpecFloat FloatOps FloatAxioms.
#[local] Set Warnings "-inexact-float".

Lemma is_nan_spec x : is_nan x = false <-> Prim2SF x <> S754_nan.
Proof.
  unfold is_nan. rewrite eqb_spec. unfold SFeqb, SFcompare.
  destruct (Prim2SF x) as [s | s | | s m e].
  - split; [discriminate | reflexivity].
  - destruct s; (split; [discriminate | reflexivity]).
  - split; [discriminate | congruence].
  - rewrite Z.compare_refl, Pos.compare_cont_refl.
    destruct s; (split; [discriminate | reflexivity]).
Qed.

Lemma leb_zero_nonneg x : (0 <=? x)%float = true <-> Float64.nonneg (Prim2SF x).
Proof.
  rewrite leb_spec. change (Prim2SF 0%float) with (S754_zero false).
  destruct (Prim2SF x) as [s | s | | s m e]; cbn; try destruct s; cbn;
    split; intros; try discriminate; try contradiction; auto.
Qed.

Lemma add_nonneg x y :
  (0 <=? x)%float = true -> (0 <=? y)%float = true -> (0 <=? x + y)%float = true.
Proof.
  rewrite !leb_zero_nonneg, add_spec. apply SFadd_nonneg.
Qed.

Lemma fold_add_nonneg xs acc :
  Forall (fun a => (0 <=? a)%float = true) xs -> (0 <=? acc)%float = true ->
  (0 <=? fold_left PrimFloat.add xs acc)%float = true.
Proof.
  intros Hxs. revert acc. induction Hxs as [|x xs Hx _ IH]; intros acc Hacc.
  - exact Hacc.
  - cbn. apply IH, add_nonneg; assumption.
Qed.

(** A total of amounts none of which is negative or NaN is not negative
    and not NaN; it may be the infinity. *)
Lemma total_of_nonneg ty txs :
  Forall (fun t => (0 <=? Float64.doc_amount t)%float = true) txs ->
  (0 <=? Float64.total_of ty txs)%float = true.
Proof.
  intros Hall. unfold Float64.total_of, Float64.sum. apply fold_add_nonneg.
  - apply List.Forall_forall. intros x Hx. apply in_map_iff in Hx.
    destruct Hx as (t & <- & Ht). apply filter_In in Ht.
    rewrite List.Forall_forall in Hall. apply Hall, Ht.
  - reflexivity.
Qed.

Lemma eqb_zero_not_positive x : (x =? 0)%float = true -> (0 <? x)%float = false.
Proof.
  rewrite eqb_spec, ltb_spec. change (Prim2SF 0%float) with (S754_zero false).
  destruct (Prim2SF x) as [s | s | | s m e]; cbn; try destruct s; cbn;
    try discriminate; reflexivity.
Qed.

Lemma positive_not_zero x : (0 <? x)%float = true -> (x =? 0)%float = false.
Proof.
  intros H. destruct (x =? 0)%float eqn:E; [| reflexivity].
  apply eqb_zero_not_positive in E. congruence.
Qed.

Lemma nonneg_not_zero_positive x :
  (0 <=? x)%float = true -> (x =? 0)%float = false -> (0 <? x)%float = true.
Proof.
  rewrite leb_zero_nonneg, eqb_spec, ltb_spec.
  change (Prim2SF 0%float) with (S754_zero false).
  destruct (Prim2SF x) as [s | s | | s m e]; cbn; try contradiction;
    try (intros ->); try discriminate; reflexivity.
Qed.

Lemma positive_finite x :
  (0 <? x)%float = true -> (x <? infinity)%float = true ->
  exists m e, Prim2SF x = S754_finite false m e.
Proof.
  rewrite !ltb_spec. change (Prim2SF 0%float) with (S754_zero false).
  change (Prim2SF infinity) with (S754_infinity false).
  destruct (Prim2SF x) as [s | s | | s m e]; cbn; try destruct s; cbn;
    try discriminate; eauto.
Qed.

Lemma round1_not_nan x : is_nan x = false -> is_nan (Float64.round1 x) = false.
Proof.
  intros Hx. unfold Float64.round1.
  destruct (Prim2SF x) as [s | s | | s m e] eqn:E; try exact Hx.
  set (tenths := if 0 <=? e then _ else _).
  destruct (tenths <=? 2 ^ 53); [| exact Hx].
  assert (Hten : exists m10 e10, Prim2SF 10%float = S754_finite false m10 e10)
    by (vm_compute; eauto).
  destruct Hten as (m10 & e10 & Hten).
  assert (Hr : Prim2SF (Float64.of_small_Z tenths / 10)%float <> S754_nan).
  { rewrite div_spec, Hten. apply SFdiv_not_nan.
    unfold Float64.of_small_Z. rewrite of_uint63_spec.
    apply binary_normalize_not_nan. }
  apply is_nan_spec. destruct s; [| exact Hr].
  rewrite opp_spec. apply SFopp_not_nan, Hr.
Qed.

Lemma monthly_docs_ok docs year month w :
  month_window year month = Returns w ->
  Float64.monthly_transactions docs year month =
    Returns (Mongo.find_to_list (Float64.date_in_window w.1 w.2) 1000 docs).
Proof. intros Hw. unfold Float64.monthly_transactions. rewrite Hw. reflexivity. Qed.

(** The ratio of a report whose [total_income] is positive and finite is
    not NaN unless [total_expense] is. *)
Lemma savings_ratio_not_nan ti te :
  (0 <? ti)%float = true -> (ti <? infinity)%float = true -> is_nan te = false ->
  is_nan (Float64.round1 ((ti - te) / ti * 100)%float) = false.
Proof.
  intros Hpos Hfin Hte. apply round1_not_nan, is_nan_spec.
  destruct (positive_finite ti Hpos Hfin) as (m & e & Hti).
  assert (H100 : exists m' e', Prim2SF 100%float = S754_finite false m' e')
    by (vm_compute; eauto).
  destruct H100 as (m' & e' & H100).
  rewrite mul_spec, H100. apply SFmul_not_nan.
  rewrite div_spec, Hti. apply SFdiv_not_nan.
  rewrite sub_spec, Hti. apply SFsub_not_nan, is_nan_spec, Hte.
Qed.

(** Claim C1, in the arithmetic of the code.  Whenever the window of the
    month exists the report is returned: no [ZeroDivisionError] or other
    error comes out of the ratio.  Its [net_balance] is
    [total_income - total_expense]; its [savings_percentage] is exactly 0
    when [total_income > 0] fails and is
    [round(net_balance / total_income * 100, 1)] when it holds.  When no
    stored amount is negative or NaN the guard fails only at
    [total_income == 0], so the percentage is 0 there and the rounded ratio
    otherwise, and it is not NaN as long as [total_income] is finite. *)
Theorem savings_percentage_in_doubles docs year month w :
  month_window year month = Returns w ->
  exists r,
    Float64.get_monthly_analytics docs year month = Returns r /\
    Float64.net_balance r = (Float64.total_income r - Float64.total_expense r)%float /\
    ((0 <? Float64.total_income r)%float = false ->
     Float64.savings_percentage r = 0%float) /\
    ((0 <? Float64.total_income r)%float = true ->
     Float64.savings_percentage r =
       Float64.round1 (Float64.net_balance r / Float64.total_income r * 100)%float) /\
    (Forall (fun t => (0 <=? Float64.doc_amount t)%float = true) docs ->
     ((Float64.total_income r =? 0)%float = true ->
      Float64.savings_percentage r = 0%float) /\
     ((Float64.total_income r =? 0)%float = false ->
      Float64.savings_percentage r =
        Float64.round1 (Float64.net_balance r / Float64.total_income r * 100)%float) /\
     ((Float64.total_income r <? infinity)%float = true ->
      is_nan (Float64.savings_percentage r) = false)).
Proof.
  intros Hw. unfold Float64.get_monthly_analytics.
  rewrite (monthly_docs_ok docs year month w Hw). cbn [mbind outcome_bind Py.bind].
  set (txs := Mongo.find_to_list _ 1000 docs).
  set (ti := Float64.total_of INCOME txs).
  set (te := Float64.total_of EXPENSE txs).
  assert (Hnn : Forall (fun t => (0 <=? Float64.doc_amount t)%float = true) docs ->
                (0 <=? ti)%float = true /\ (0 <=? te)%float = true).
  { intros Hall.
    assert (Htxs : Forall (fun t => (0 <=? Float64.doc_amount t)%float = true) txs).
    { unfold txs, Mongo.find_to_list. apply List.Forall_forall. intros t Ht.
      apply list_elem_of_In, subseteq_take, list_elem_of_In, filter_In in Ht.
      rewrite List.Forall_forall in Hall. apply Hall, Ht. }
    split; apply total_of_nonneg, Htxs. }
  clearbody ti te.
  destruct (0 <? ti)%float eqn:Hguard.
  - unfold Float64.truediv. rewrite (positive_not_zero ti Hguard).
    cbn [mbind mret outcome_bind outcome_ret Py.bind].
    eexists. split; [reflexivity |].
    cbn [Float64.net_balance Float64.total_income Float64.total_expense
         Float64.savings_percentage].
    split; [reflexivity |]. rewrite Hguard.
    split; [discriminate |]. split; [reflexivity |].
    intros Hall. destruct (Hnn Hall) as [_ Hte]. split; [| split].
    + intros H0. apply eqb_zero_not_positive in H0. congruence.
    + reflexivity.
    + intros Hfin. apply savings_ratio_not_nan; try assumption.
      apply is_nan_spec. intros Hnan.
      apply leb_zero_nonneg in Hte. rewrite Hnan in Hte. exact Hte.
  - cbn [mbind mret outcome_bind outcome_ret Py.bind].
    eexists. split; [reflexivity |].
    cbn [Float64.net_balance Float64.total_income Float64.total_expense
         Float64.savings_percentage].
    split; [reflexivity |]. rewrite Hguard.
    split; [reflexivity |]. split; [discriminate |].
    intros Hall. destruct (Hnn Hall) as [Hti _]. split; [| split].
    + reflexivity.
    + intros Hne.
      rewrite (nonneg_not_zero_positive ti Hti Hne) in Hguard. discriminate.
    + reflexivity.
Qed.

Lemma savings_percentage_in_doubles_witness :
  exists r,
    Float64.get_monthly_analytics Float64.docs_80_29 2024 6 = Returns r /\
    Float64.net_balance r = (Float64.total_income r - Float64.total_expense r)%float /\
    ((0 <? Float64.total_income r)%float = false ->
     Float64.savings_percentage r = 0%float) /\
    ((0 <? Float64.total_income r)%float = true ->
     Float64.savings_percentage r =
       Float64.round1 (Float64.net_balance r / Float64.total_income r * 100)%float) /\
    (Forall (fun t => (0 <=? Float64.doc_amount t)%float = true) Float64.docs_80_29 ->
     ((Float64.total_income r =? 0)%float = true ->
      Float64.savings_percentage r = 0%float) /\
     ((Float64.total_income r =? 0)%float = false ->
      Float64.savings_percentage r =
        Float64.round1 (Float64.net_balance r / Float64.total_income r * 100)%float) /\
     ((Float64.total_income r <? infinity)%float = true ->
      is_nan (Float64.savings_percentage r) = false)).
Proof.
  apply (savings_percentage_in_doubles Float64.docs_80_29 2024 6
           (first_of_month 2024 6, first_of_next_month 2024 6)).
  reflexivity.
Defined.

(** Two incomes of 1e308 in June 2024, neither negative nor infinite: the
    total is the infinity, [net_balance / total_income] is infinity over
    infinity, and the report's [savings_percentage] is NaN. *)
Lemma savings_percentage_nan_on_overflow :
  Forall (fun t => (0 <=? Float64.doc_amount t)%float = true /\
                   (Float64.doc_amount t <? infinity)%float = true)
    Float64.docs_overflow /\
  exists r,
    Float64.get_monthly_analytics Float64.docs_overflow 2024 6 = Returns r /\
    Float64.total_income r = infinity /\
    (Float64.total_income r =? 0)%float = false /\
    is_nan (Float64.savings_percentage r) = true.
Proof.
  split.
  - repeat constructor.
  - eexists. split; [vm_compute; reflexivity |]. repeat split.
Qed.

(** An income of 80 and an expense of 29: the ratio 63.75 is rounded to the
    double next below it, 63.74999..., before [round] sees it, and the
    report says 63.7. *)
Example savings_of_80_and_29 :
  exists r,
    Float64.get_monthly_analytics Float64.docs_80_29 2024 6 = Returns r /\
    Float64.total_income r = 80%float /\ Float64.total_expense r = 29%float /\
    Float64.net_balance r = 51%float /\
    (Float64.net_balance r / Float64.total_income r * 100 <? 63.75)%float = true /\
    Float64.savings_percentage r = 63.7%float.
Proof.
  eexists. split; [vm_compute; reflexivity |]. repeat split.
Qed.

(** An income of 2000 and an expense of 1999: the ratio is the double
    nearest to 0.05, which lies above it, and the report says 0.1. *)
Example savings_of_2000_and_1999 :
  exists r,
    Float64.get_monthly_analytics Float64.docs_2000_1999 2024 6 = Returns r /\
    Float64.net_balance r = 1%float /\
    (Float64.net_balance r / Float64.total_income r * 100)%float = 0.05%float /\
    Float64.savings_percentage r = 0.1%float.
Proof.
  eexists. split; [vm_compute; reflexivity |]. repeat split.
Qed.

(** One income of -100, which the handlers do not refuse: [total_income] is
    not zero and the report says 0, where the rounded ratio is 100. *)
Example savings_of_negative_income :
  exists r,
    Float64.get_monthly_analytics Float64.docs_negative_income 2024 6 = Returns r /\
    (Float64.total_income r =? 0)%float = false /\
    Float64.savings_percentage r = 0%float /\
    Float64.round1 (Float64.net_balance r / Float64.total_income r * 100)%float
      = 100%float.
Proof.
  eexists. split; [vm_compute; reflexivity |]. repeat split.
Qed.

End DoubleReport.

(** *** Breakdown and total *)

Section Groups.
Context {A K : Type} (p : A -> bool) (same : K -> K -> bool) (key_of : A -> K).
Hypothesis same_spec : forall a b, same a b = true <-> a = b.

Local Abbreviation groups l ks :=
  (concat (map (fun k => List.filter (fun x => p x && same (key_of x) k) l) ks)).





End Groups.

Section DoubleBreakdown.
Import PrimFloat.
#[local] Set Warnings "-inexact-float".






End DoubleBreakdown.

(** *** Month window *)

(** Claim C3, with the cap of the query: for a year in 1..9999 and a month
    in 1..12, December 9999 apart, [get_monthly_analytics] works on the first
    1000 stored transactions whose date lies in the half-open window from
    the first day of the month to the first day of the next month, where
    month 12 rolls into January of [year + 1]. *)
Theorem monthly_window_selection db year month :
  1 <= year <= 9999 -> 1 <= month <= 12 -> ~ (year = 9999 /\ month = 12) ->
  exists q,
    (forall t, q t = true <->
       in_half_open (first_of_month year month) (first_of_next_month year month)
         (tx_date t)) /\
    monthly_transactions db year month =
      Returns (take 1000 (List.filter q (transactions db))).
Proof.
  intros Hy Hm Hlast.
  exists (date_in_window (first_of_month year month) (first_of_next_month year month)).
  split.
  - intros t. apply date_in_window_spec.
  - rewrite (monthly_transactions_ok db year month _ (month_window_ok year month Hy Hm Hlast)).
    reflexivity.
Qed.

Lemma monthly_window_selection_witness :
  exists q,
    (forall t, q t = true <->
       in_half_open (mk_datetime 2024 12 1 0) (mk_datetime 2025 1 1 0) (tx_date t)) /\
    monthly_transactions db_food_expense 2024 12 =
      Returns (take 1000 (List.filter q (transactions db_food_expense))).
Proof.
  apply (monthly_window_selection db_food_expense 2024 12); lia.
Defined.

(** 1001 transactions on 15 December 2024: the last one lies in the window
    of December 2024 and is not among the fetched ones. *)
Lemma busy_december_not_all_selected :
  exists txs t,
    monthly_transactions db_busy_december 2024 12 = Returns txs /\
    In t (transactions db_busy_december) /\
    in_half_open (mk_datetime 2024 12 1 0) (mk_datetime 2025 1 1 0) (tx_date t) /\
    ~ In (tx_id t) (map tx_id txs).
Proof.
  eexists. exists (numbered_tx EXPENSE "Food" mid_december_2024 1000).
  split; [reflexivity |]. split; [| split].
  - apply in_map, in_seq. lia.
  - split; [discriminate | reflexivity].
  - intros Hin.
    assert (Hb : existsb (String.eqb (tx_id (numbered_tx EXPENSE "Food" mid_december_2024 1000)))
                   (map tx_id (take 1000 (transactions db_busy_december))) = false)
      by (vm_compute; reflexivity).
    apply not_true_iff_false in Hb. apply Hb. apply existsb_exists.
    eexists. split; [exact Hin | apply String.eqb_refl].
Qed.

(** ** Six-month series *)

(** The loop stops at the first month above 0; each turn moves one year back. *)
Lemma roll_back_closed_form month year :
  month <= 12 ->
  roll_back month year = ((month - 1) mod 12 + 1, year + (month - 1) / 12).
Proof.
  funelim (roll_back month year); intros Hle.
  - rewrite H by lia. f_equal.
    + replace (month + 12 - 1) with (month - 1 + 1 * 12) by lia.
      rewrite Z.mod_add by lia. reflexivity.
    + replace (month + 12 - 1) with (month - 1 + 1 * 12) by lia.
      rewrite Z.div_add by lia. lia.
  - f_equal.
    + rewrite Z.mod_small by lia. lia.
    + rewrite Z.div_small by lia. lia.
Qed.

Lemma roll_back_months_ago year month i :
  1 <= month <= 12 -> 0 <= i ->
  roll_back (month - i) year =
    ((months_ago year month i).2, (months_ago year month i).1).
Proof.
  intros Hm Hi. rewrite roll_back_closed_form by lia.
  unfold months_ago. cbn [fst snd]. f_equal.
  - replace (year * 12 + (month - 1) - i) with (month - i - 1 + year * 12) by lia.
    rewrite Z.mod_add by lia. reflexivity.
  - replace (year * 12 + (month - 1) - i) with (month - i - 1 + year * 12) by lia.
    rewrite Z.div_add by lia. lia.
Qed.

Lemma month_name_ok month :
  1 <= month <= 12 -> month_name month = Returns (month_abbrev month).
Proof.
  intros Hm.
  assert (H : month = 1 \/ month = 2 \/ month = 3 \/ month = 4 \/ month = 5 \/ month = 6 \/
              month = 7 \/ month = 8 \/ month = 9 \/ month = 10 \/ month = 11 \/ month = 12)
    by lia.
  repeat (destruct H as [-> | H]; [reflexivity |]). subst. reflexivity.
Qed.

Lemma months_ago_range year month i :
  1 <= month <= 12 -> 0 <= i <= 5 ->
  1 <= (months_ago year month i).2 <= 12 /\
  ((months_ago year month i = (year, month - i) /\ 1 <= month - i) \/
   (months_ago year month i = (year - 1, month - i + 12) /\ month - i <= 0)).
Proof.
  intros Hm Hi. unfold months_ago. cbn [fst snd].
  split; [pose proof (Z.mod_pos_bound (year * 12 + (month - 1) - i) 12); lia |].
  destruct (Z_le_gt_dec (month - i) 0).
  - right. split; [| lia]. f_equal.
    + symmetry. apply (Z.div_unique _ _ _ (month - i + 11)); lia.
    + rewrite <- (Z.mod_unique _ _ (year - 1) (month - i + 11)); lia.
  - left. split; [| lia]. f_equal.
    + symmetry. apply (Z.div_unique _ _ _ (month - i - 1)); lia.
    + rewrite <- (Z.mod_unique _ _ year (month - i - 1)); lia.
Qed.

Lemma six_months_entry_ok db now i :
  1 <= dt_year now <= 9999 -> 1 <= dt_month now <= 12 ->
  ~ (dt_year now = 1 /\ dt_month now <= 5) ->
  ~ (dt_year now = 9999 /\ dt_month now = 12) ->
  0 <= i <= 5 ->
  six_months_entry db now i =
    Returns (month_summary 1000 db (months_ago (dt_year now) (dt_month now) i)).
Proof.
  intros Hy Hm Hfirst Hlast Hi. unfold six_months_entry.
  rewrite roll_back_months_ago by lia.
  destruct (months_ago_range (dt_year now) (dt_month now) i Hm Hi) as [Hr Hc].
  destruct (months_ago (dt_year now) (dt_month now) i) as [y m] eqn:E.
  cbn [fst snd] in *.
  assert (Hy' : 1 <= y <= 9999).
  { destruct Hc as [[Hc _] | [Hc ?]]; inversion Hc; subst; [lia |].
    destruct (Z.eq_dec (dt_year now) 1) as [E1|]; [| lia].
    exfalso. apply Hfirst. split; [exact E1 | lia]. }
  assert (Hl' : ~ (y = 9999 /\ m = 12)).
  { intros [-> ->]. destruct Hc as [[Hc ?] | [Hc ?]]; inversion Hc; [| lia].
    apply Hlast. split; [congruence | lia]. }
  rewrite (month_window_ok y m Hy' Hr Hl'). cbn.
  rewrite (month_name_ok m Hr). reflexivity.
Qed.

(** Claim C5, with the cap of the queries: when the six months ending at
    the current one and their windows are within the years 1..9999,
    [get_last_six_months] returns six records, oldest first, for the months
    5, 4, 3, 2, 1 and 0 months before the current one; each carries the
    three-letter abbreviation of its month, its year, and the income and
    expense totals of the first 1000 stored transactions of its window. *)
Theorem last_six_months_series db now :
  1 <= dt_year now <= 9999 -> 1 <= dt_month now <= 12 ->
  ~ (dt_year now = 1 /\ dt_month now <= 5) ->
  ~ (dt_year now = 9999 /\ dt_month now = 12) ->
  get_last_six_months db now =
    Returns (map (fun i => month_summary 1000 db (months_ago (dt_year now) (dt_month now) i))
               [5; 4; 3; 2; 1; 0]).
Proof.
  intros Hy Hm Hfirst Hlast. unfold get_last_six_months.
  cbn [six_months_loop].
  repeat (rewrite six_months_entry_ok by (try assumption; lia); cbn [mbind outcome_bind Py.bind]).
  reflexivity.
Qed.

Lemma last_six_months_series_witness :
  exists rs,
    get_last_six_months db_food_expense mid_march_2024 = Returns rs /\
    map (fun r => (ms_month r, ms_year r)) rs =
      [("Oct", 2023); ("Nov", 2023); ("Dec", 2023);
       ("Jan", 2024); ("Feb", 2024); ("Mar", 2024)].
Proof.
  eexists. split.
  - apply (last_six_months_series db_food_expense mid_march_2024); cbn; lia.
  - reflexivity.
Defined.

(** 1001 incomes of 1 on 15 March 2024, read in March 2024: the record of
    March 2024 carries an income of 1000 while the incomes of that month add
    up to 1001. *)
Lemma busy_march_income_truncated :
  exists rs r,
    get_last_six_months db_busy_march mid_march_2024 = Returns rs /\
    last rs = Some r /\
    ms_month r = "Mar" /\ ms_year r = 2024 /\
    ms_income r = Q2Qc 1000 /\
    total_of INCOME (transactions_of_month db_busy_march 2024 3) = Q2Qc 1001.
Proof.
  eexists. eexists. split; [vm_compute; reflexivity |].
  split; [reflexivity |].
  split; [reflexivity |]. split; [reflexivity |].
  split; apply Qc_is_canon; vm_compute; reflexivity.
Qed.

(** ** Category list and seeding *)

Lemma filter_all {A} (l : list A) : List.filter (fun _ => true) l = l.
Proof. induction l as [|a l IH]; cbn; [reflexivity | now rewrite IH]. Qed.

Lemma find_all_to_list {A} (n : nat) (l : list A) :
  Mongo.find_to_list (fun _ => true) n l = take n l.
Proof. unfold Mongo.find_to_list. now rewrite filter_all. Qed.

(** Claim C8: on an empty catalog the first [get_categories] inserts the
    eight default categories, in order and with their colors and icons, and
    returns them, leaving transactions and reminders alone; a second call
    returns the same eight and inserts nothing. *)
Theorem seeding_is_idempotent uuid4 utcnow uuid4' utcnow' db :
  categories db = [] ->
  exists seeded db1,
    get_categories uuid4 utcnow db = (seeded, db1) /\
    map name_color_icon seeded = DEFAULT_CATEGORIES /\
    map cat_name seeded =
      ["Food"; "Rent"; "Transport"; "Shopping"; "Bills"; "Entertainment";
       "Salary"; "Investments"] /\
    length seeded = 8%nat /\
    categories db1 = seeded /\
    transactions db1 = transactions db /\ reminders db1 = reminders db /\
    get_categories uuid4' utcnow' db1 = (seeded, db1).
Proof.
  intros Hempty. destruct db as [cats txs rems]. cbn in Hempty. subst cats.
  do 2 eexists. split; [reflexivity |]. cbn. repeat split.
Qed.

Lemma seeding_is_idempotent_witness :
  exists seeded db1,
    get_categories sample_uuid4 sample_utcnow empty_db = (seeded, db1) /\
    map name_color_icon seeded = DEFAULT_CATEGORIES /\
    map cat_name seeded =
      ["Food"; "Rent"; "Transport"; "Shopping"; "Bills"; "Entertainment";
       "Salary"; "Investments"] /\
    length seeded = 8%nat /\
    categories db1 = seeded /\
    transactions db1 = transactions empty_db /\ reminders db1 = reminders empty_db /\
    get_categories sample_uuid4 sample_utcnow db1 = (seeded, db1).
Proof.
  apply (seeding_is_idempotent sample_uuid4 sample_utcnow sample_uuid4 sample_utcnow empty_db).
  reflexivity.
Defined.

(** Claim C9, with the cap of the query: on a non-empty catalog
    [get_categories] returns the first 100 stored categories and writes
    nothing; it returns all of them when there are at most 100. *)
Theorem list_returns_first_hundred uuid4 utcnow db :
  categories db <> [] ->
  get_categories uuid4 utcnow db = (take 100 (categories db), db) /\
  ((length (categories db) <= 100)%nat ->
   (get_categories uuid4 utcnow db).1 = categories db).
Proof.
  intros Hne.
  assert (H : get_categories uuid4 utcnow db = (take 100 (categories db), db)).
  { unfold get_categories. rewrite find_all_to_list.
    destruct (categories db) as [|c l]; [congruence | reflexivity]. }
  split; [exact H |].
  intros Hlen. rewrite H. cbn [fst]. apply take_ge. exact Hlen.
Qed.

Lemma list_returns_first_hundred_witness :
  get_categories sample_uuid4 sample_utcnow db_one_of_each =
    (take 100 (categories db_one_of_each), db_one_of_each) /\
  ((length (categories db_one_of_each) <= 100)%nat ->
   (get_categories sample_uuid4 sample_utcnow db_one_of_each).1 =
     categories db_one_of_each).
Proof.
  apply (list_returns_first_hundred sample_uuid4 sample_utcnow db_one_of_each).
  discriminate.
Defined.

(** 101 stored categories: 100 are returned and c100 is not among them. *)
Lemma many_categories_not_all_listed :
  categories db_many_categories <> [] /\
  In (numbered_category 100) (categories db_many_categories) /\
  length (get_categories sample_uuid4 sample_utcnow db_many_categories).1 = 100%nat /\
  ~ In (cat_id (numbered_category 100))
      (map cat_id (get_categories sample_uuid4 sample_utcnow db_many_categories).1).
Proof.
  split; [discriminate |]. split; [apply in_map, in_seq; lia |].
  split; [vm_compute; reflexivity |].
  intros Hin.
  assert (Hb : existsb (String.eqb (cat_id (numbered_category 100)))
                 (map cat_id (get_categories sample_uuid4 sample_utcnow db_many_categories).1)
               = false) by (vm_compute; reflexivity).
  apply not_true_iff_false in Hb. apply Hb. apply existsb_exists.
  eexists. split; [exact Hin | apply String.eqb_refl].
Qed.

(** ** Updates *)

Section UpdateOne.

Context {A : Type} `{EqDecision A}.
Variables (q : A -> bool) (set : A -> A).

Lemma update_one_no_match coll :
  Forall (fun d => q d = false) coll ->
  Mongo.update_one q set coll = (Mongo.mk_UpdateResult 0 0, coll).
Proof.
  induction 1 as [|d coll Hd _ IH]; [reflexivity |].
  cbn. rewrite Hd, IH. reflexivity.
Qed.

Lemma update_one_first_match pre d post :
  Forall (fun d => q d = false) pre -> q d = true ->
  Mongo.update_one q set (pre ++ d :: post)%list =
    (Mongo.mk_UpdateResult 1 (if decide (set d = d) then 0 else 1),
     (pre ++ set d :: post)%list).
Proof.
  intros Hpre Hd. induction Hpre as [|x pre Hx _ IH]; cbn.
  - rewrite Hd. reflexivity.
  - rewrite Hx, IH. reflexivity.
Qed.

Lemma find_one_first_match pre d post :
  Forall (fun d => q d = false) pre -> q d = true ->
  Mongo.find_one q (pre ++ d :: post)%list = Some d.
Proof.
  intros Hpre Hd. unfold Mongo.find_one.
  induction Hpre as [|x pre Hx _ IH]; cbn.
  - rewrite Hd. reflexivity.
  - rewrite Hx. exact IH.
Qed.

(** A collection either has no match or splits at its first match. *)
Lemma first_match_split coll :
  Forall (fun d => q d = false) coll \/
  exists pre d post,
    coll = (pre ++ d :: post)%list /\ Forall (fun d => q d = false) pre /\ q d = true.
Proof.
  induction coll as [|x coll IH].
  - left. constructor.
  - destruct (q x) eqn:Hx.
    + right. exists [], x, coll. repeat split; [constructor | exact Hx].
    + destruct IH as [IH | (pre & d & post & -> & Hpre & Hd)].
      * left. constructor; assumption.
      * right. exists (x :: pre), d, post. repeat split; [constructor |]; assumption.
Qed.

End UpdateOne.

(** What [$set] does to a stored record: the supplied fields take the
    supplied values, every other field keeps its value. *)
Lemma Category_set_fields p c :
  Category_set (CategoryUpdate_items p) c =
    mk_Category (cat_id c)
      (default (cat_name c) (cu_name p))
      (default (cat_color c) (cu_color p))
      (default (cat_icon c) (cu_icon p))
      (cat_created_at c).
Proof. destruct p as [[?|] [?|] [?|]], c; reflexivity. Qed.

Lemma Transaction_set_fields p t :
  Transaction_set (TransactionUpdate_items p) t =
    mk_Transaction (tx_id t)
      (default (tx_amount t) (tu_amount p))
      (default (tx_category_id t) (tu_category_id p))
      (match tu_category_name p with Some v => Some v | None => tx_category_name t end)
      (default (tx_type t) (tu_type p))
      (default (tx_date t) (tu_date p))
      (match tu_note p with Some v => Value v | None => tx_note t end)
      (default (tx_is_recurring t) (tu_is_recurring p))
      (tx_created_at t).
Proof. destruct p as [[?|] [?|] [?|] [?|] [?|] [?|] [?|]], t; reflexivity. Qed.

Lemma Reminder_set_fields p r :
  Reminder_set (ReminderUpdate_items p) r =
    mk_Reminder (rem_id r)
      (default (rem_title r) (ru_title p))
      (match ru_message p with Some v => Some v | None => rem_message r end)
      (default (rem_date r) (ru_date p))
      (default (rem_time r) (ru_time p))
      (default (rem_is_recurring r) (ru_is_recurring p))
      (default (rem_is_enabled r) (ru_is_enabled p))
      (rem_created_at r).
Proof. destruct p as [[?|] [?|] [?|] [?|] [?|] [?|]], r; reflexivity. Qed.

Lemma Category_set_id items c : cat_id (Category_set items c) = cat_id c.
Proof.
  revert c. induction items as [|a items IH]; intros c; [reflexivity |].
  cbn. unfold Category_set in IH. rewrite IH. destruct a; reflexivity.
Qed.

(** The outcome of a category update with something to apply: the target is
    the first record with the identifier; the update fails with 404 when there
    is none, and also when the patch leaves the target as it was. *)
Lemma update_category_missing db category_id category :
  CategoryUpdate_items category <> [] ->
  Forall (fun c => String.eqb (cat_id c) category_id = false) (categories db) ->
  update_category db category_id category =
    (Raises (HTTPException 404 "Category not found"), db).
Proof.
  intros Hitems Hnone. unfold update_category.
  destruct (CategoryUpdate_items category) as [|a items] eqn:E; [congruence |].
  rewrite update_one_no_match by exact Hnone. cbn. destruct db; reflexivity.
Qed.

Lemma update_category_existing pre c post txs rems category :
  CategoryUpdate_items category <> [] ->
  Forall (fun d => String.eqb (cat_id d) (cat_id c) = false) pre ->
  let c' := Category_set (CategoryUpdate_items category) c in
  update_category (mk_Db (pre ++ c :: post)%list txs rems) (cat_id c) category =
    if decide (c' = c) then
      (Raises (HTTPException 404 "Category not found"), mk_Db (pre ++ c :: post)%list txs rems)
    else (Returns c', mk_Db (pre ++ c' :: post)%list txs rems).
Proof.
  intros Hitems Hpre. cbv zeta. unfold update_category.
  destruct (CategoryUpdate_items category) as [|a items] eqn:E; [congruence |].
  rewrite <- E.
  rewrite (update_one_first_match _ _ pre c post Hpre (String.eqb_refl _)).
  cbn [categories transactions reminders Mongo.modified_count].
  set (c' := Category_set (CategoryUpdate_items category) c).
  assert (Hid : cat_id c' = cat_id c) by apply Category_set_id.
  clearbody c'.
  destruct (decide (c' = c)) as [Heq | Hne]; cbn.
  - rewrite Heq. reflexivity.
  - rewrite (find_one_first_match _ pre c' post Hpre).
    + reflexivity.
    + rewrite Hid. apply String.eqb_refl.
Qed.

Lemma Transaction_set_id items t : tx_id (Transaction_set items t) = tx_id t.
Proof.
  revert t. induction items as [|a items IH]; intros t; [reflexivity |].
  cbn. unfold Transaction_set in IH. rewrite IH. destruct a; reflexivity.
Qed.

Lemma Reminder_set_id items r : rem_id (Reminder_set items r) = rem_id r.
Proof.
  revert r. induction items as [|a items IH]; intros r; [reflexivity |].
  cbn. unfold Reminder_set in IH. rewrite IH. destruct a; reflexivity.
Qed.

Lemma update_transaction_missing db transaction_id transaction :
  TransactionUpdate_items transaction <> [] ->
  Forall (fun t => String.eqb (tx_id t) transaction_id = false) (transactions db) ->
  update_transaction db transaction_id transaction =
    (Raises (HTTPException 404 "Transaction not found"), db).
Proof.
  intros Hitems Hnone. unfold update_transaction.
  destruct (TransactionUpdate_items transaction) as [|a items] eqn:E; [congruence |].
  rewrite update_one_no_match by exact Hnone. cbn. destruct db; reflexivity.
Qed.

Lemma update_transaction_existing cats pre t post rems transaction :
  TransactionUpdate_items transaction <> [] ->
  Forall (fun d => String.eqb (tx_id d) (tx_id t) = false) pre ->
  let t' := Transaction_set (TransactionUpdate_items transaction) t in
  update_transaction (mk_Db cats (pre ++ t :: post)%list rems) (tx_id t) transaction =
    if decide (t' = t) then
      (Raises (HTTPException 404 "Transaction not found"),
       mk_Db cats (pre ++ t :: post)%list rems)
    else (Returns (Transaction_of_doc t'), mk_Db cats (pre ++ t' :: post)%list rems).
Proof.
  intros Hitems Hpre. cbv zeta. unfold update_transaction.
  destruct (TransactionUpdate_items transaction) as [|a items] eqn:E; [congruence |].
  rewrite <- E.
  rewrite (update_one_first_match _ _ pre t post Hpre (String.eqb_refl _)).
  cbn [categories transactions reminders Mongo.modified_count].
  set (t' := Transaction_set (TransactionUpdate_items transaction) t).
  assert (Hid : tx_id t' = tx_id t) by apply Transaction_set_id.
  clearbody t'.
  destruct (decide (t' = t)) as [Heq | Hne]; cbn.
  - rewrite Heq. reflexivity.
  - rewrite (find_one_first_match _ pre t' post Hpre).
    + reflexivity.
    + rewrite Hid. apply String.eqb_refl.
Qed.

Lemma update_reminder_missing db reminder_id reminder :
  ReminderUpdate_items reminder <> [] ->
  Forall (fun r => String.eqb (rem_id r) reminder_id = false) (reminders db) ->
  update_reminder db reminder_id reminder =
    (Raises (HTTPException 404 "Reminder not found"), db).
Proof.
  intros Hitems Hnone. unfold update_reminder.
  destruct (ReminderUpdate_items reminder) as [|a items] eqn:E; [congruence |].
  rewrite update_one_no_match by exact Hnone. cbn. destruct db; reflexivity.
Qed.

Lemma update_reminder_existing cats txs pre r post reminder :
  ReminderUpdate_items reminder <> [] ->
  Forall (fun d => String.eqb (rem_id d) (rem_id r) = false) pre ->
  let r' := Reminder_set (ReminderUpdate_items reminder) r in
  update_reminder (mk_Db cats txs (pre ++ r :: post)%list) (rem_id r) reminder =
    if decide (r' = r) then
      (Raises (HTTPException 404 "Reminder not found"),
       mk_Db cats txs (pre ++ r :: post)%list)
    else (Returns r', mk_Db cats txs (pre ++ r' :: post)%list).
Proof.
  intros Hitems Hpre. cbv zeta. unfold update_reminder.
  destruct (ReminderUpdate_items reminder) as [|a items] eqn:E; [congruence |].
  rewrite <- E.
  rewrite (update_one_first_match _ _ pre r post Hpre (String.eqb_refl _)).
  cbn [categories transactions reminders Mongo.modified_count].
  set (r' := Reminder_set (ReminderUpdate_items reminder) r).
  assert (Hid : rem_id r' = rem_id r) by apply Reminder_set_id.
  clearbody r'.
  destruct (decide (r' = r)) as [Heq | Hne]; cbn.
  - rewrite Heq. reflexivity.
  - rewrite (find_one_first_match _ pre r' post Hpre).
    + reflexivity.
    + rewrite Hid. apply String.eqb_refl.
Qed.

(** Claim C4 at a patch that repeats a stored value: the record with the
    identifier exists and is the one matched, yet the update answers 404
    "not found", because the handler tests [modified_count] and the store
    leaves an unchanged document out of that count.  The three handlers
    behave alike. *)
Theorem update_with_stored_values_reports_not_found :
  (Mongo.find_one (fun c => String.eqb (cat_id c) "c1") (categories db_one_of_each)
     = Some food_category /\
   update_category db_one_of_each "c1" (mk_CategoryUpdate (Some "Food") None None)
     = (Raises (HTTPException 404 "Category not found"), db_one_of_each)) /\
  (Mongo.find_one (fun t => String.eqb (tx_id t) "t1") (transactions db_one_of_each)
     = Some lunch_transaction /\
   update_transaction db_one_of_each "t1"
     (mk_TransactionUpdate None None None None None (Some "lunch") None)
     = (Raises (HTTPException 404 "Transaction not found"), db_one_of_each)) /\
  (Mongo.find_one (fun r => String.eqb (rem_id r) "r1") (reminders db_one_of_each)
     = Some rent_reminder /\
   update_reminder db_one_of_each "r1"
     (mk_ReminderUpdate None None None (Some "09:00") None None)
     = (Raises (HTTPException 404 "Reminder not found"), db_one_of_each)).
Proof. repeat split. Qed.

(** Claim C7: a patch with every field [None] is rejected with
    400 "No data to update" whatever the identifier, and the database is
    left as it was; the same for categories, transactions and reminders. *)
Theorem empty_patch_is_rejected db category_id transaction_id reminder_id :
  update_category db category_id (mk_CategoryUpdate None None None)
    = (Raises (HTTPException 400 "No data to update"), db) /\
  update_transaction db transaction_id
      (mk_TransactionUpdate None None None None None None None)
    = (Raises (HTTPException 400 "No data to update"), db) /\
  update_reminder db reminder_id (mk_ReminderUpdate None None None None None None)
    = (Raises (HTTPException 400 "No data to update"), db).
Proof. repeat split. Qed.

(** ** CSV export *)

(** The two replacements of the source, one after the other, are one pass of
    [csv_escape]: the doubled quotes the first one writes hold no comma. *)
Lemma replace_twice_is_csv_escape s :
  str_replace ","%char " " (str_replace dquote (String dquote (String dquote "")) s)
  = csv_escape s.
Proof.
  induction s as [|c s IH]; [reflexivity |].
  cbn [str_replace csv_escape].
  destruct (Ascii.eqb c dquote) eqn:Hq.
  - rewrite <- IH. reflexivity.
  - cbn [str_replace]. destruct (Ascii.eqb c ","%char) eqn:Hc.
    + rewrite <- IH. reflexivity.
    + rewrite <- IH. reflexivity.
Qed.

(** Claim C6, with the default as the code has it: in the row of a
    transaction whose note is a string or missing (a missing note reads as
    the empty string), the category field is the stored [category_name], or
    "Other" when the document has none (an empty name gives an empty field),
    and the note field is the note with every double quote doubled and every
    comma replaced by one space, between two double quotes. *)
Theorem csv_fields_category_and_note float_str t raw :
  note_text (tx_note t) = Some raw ->
  csv_fields float_str t =
    Returns [ strftime_Y_m_d (tx_date t);
              TransactionType_value (tx_type t);
              match tx_category_name t with None => "Other" | Some name => name end;
              float_str (tx_amount t);
              String dquote (csv_escape raw) +:+ String dquote "" ].
Proof.
  intros Hraw. unfold csv_fields.
  destruct (tx_note t) as [| |s]; cbn in Hraw; inversion Hraw; subst raw; cbn.
  - destruct (tx_category_name t); reflexivity.
  - rewrite replace_twice_is_csv_escape. destruct (tx_category_name t); reflexivity.
Qed.

Lemma csv_fields_category_and_note_witness :
  csv_fields fifty_str noted_transaction =
    Returns ["2024-06-15"; "expense"; "Other"; "50.0"; quoted_note_field].
Proof.
  exact (csv_fields_category_and_note fifty_str noted_transaction quoted_note eq_refl).
Defined.

(** A transaction stored with the empty [category_name]: the category
    field of its row is empty, not "Other". *)
Lemma empty_category_name_exported_empty :
  exists fields,
    csv_fields fifty_str unnamed_transaction = Returns fields /\
    tx_category_name unnamed_transaction = Some "" /\
    fields !! 2%nat = Some "" /\
    fields !! 2%nat <> Some "Other".
Proof.
  eexists. split; [reflexivity |]. split; [reflexivity |].
  split; [reflexivity | discriminate].
Qed.

(** A stored [None] note stops the export. *)
Lemma csv_fields_null_note float_str t :
  tx_note t = Null ->
  csv_fields float_str t =
    Raises (AttributeError "'NoneType' object has no attribute 'replace'").
Proof. intros H. unfold csv_fields. rewrite H. reflexivity. Qed.

(** Every line after the header is the row of one selected transaction. *)
Lemma csv_rows_loop_rows float_str txs acc rows :
  csv_rows_loop float_str txs acc = Returns rows ->
  exists new,
    rows = (acc ++ new)%list /\
    Forall2 (fun t row => csv_row float_str t = Returns row) txs new.
Proof.
  revert acc. induction txs as [|t txs IH]; intros acc H; cbn in H.
  - inversion H; subst. exists []. split; [now rewrite app_nil_r | constructor].
  - destruct (csv_row float_str t) as [row|e] eqn:Hrow; cbn in H; [| discriminate].
    destruct (IH _ H) as (new & -> & Hall).
    exists (row :: new). split; [now rewrite <- app_assoc | constructor; assumption].
Qed.

(** The export is the header line followed by the rows, in order, of at most
    10000 stored transactions. *)
Lemma export_csv_rows float_str fromisoformat db now start_date end_date r :
  export_csv float_str fromisoformat db now start_date end_date = Returns r ->
  exists txs rows,
    csv_content r =
      join (String newline "") ("Date,Type,Category,Amount,Notes" :: rows) /\
    Forall2 (fun t row => csv_row float_str t = Returns row) txs rows /\
    (length txs <= 10 * 1000)%nat /\
    (forall t, In t txs -> In t (transactions db)).
Proof.
  unfold export_csv. intros H.
  destruct (parse_bound fromisoformat start_date) as [gte|] eqn:Hgte; [| discriminate].
  destruct (parse_bound fromisoformat end_date) as [lte|] eqn:Hlte; [| discriminate].
  cbn [mbind outcome_bind Py.bind] in H.
  match type of H with
  | context [csv_rows_loop _ ?l _] => set (txs := l) in *
  end.
  destruct (csv_rows_loop float_str txs _) as [rows|] eqn:Hrows; [| discriminate].
  cbn in H. inversion H; subst r; clear H. cbn [csv_content].
  apply csv_rows_loop_rows in Hrows. destruct Hrows as (new & -> & Hall).
  exists txs, new. split; [reflexivity |]. split; [exact Hall |]. split.
  - unfold txs. rewrite length_take. apply Nat.le_min_l.
  - intros t Ht. unfold txs in Ht.
    apply list_elem_of_In, subseteq_take in Ht.
    rewrite merge_sort_Permutation in Ht.
    apply list_elem_of_In, filter_In in Ht. apply Ht.
Qed.

(** * Further properties *)

(** ** Analytics *)

(** X1 ([get_last_six_months], the year roll-back loop): whatever month
    index it starts from, the loop stops at a month of at least 1 and keeps
    the count of months [12 * year + month]; an index of at most 12 ends in
    1..12, and an index of at least 1 is left as it is. *)
Theorem roll_back_keeps_month_count month year :
  1 <= (roll_back month year).1 /\
  12 * (roll_back month year).2 + (roll_back month year).1 = 12 * year + month /\
  (month <= 12 -> (roll_back month year).1 <= 12) /\
  (1 <= month -> roll_back month year = (month, year)).
Proof.
  funelim (roll_back month year).
  - destruct H as (H1 & H2 & H3 & _).
    repeat split; lia.
  - cbn. repeat split; lia.
Qed.

Lemma datetime_ymd_raises y m d e :
  datetime_ymd y m d = Raises e ->
  if fits_C_int y && fits_C_int m && fits_C_int d
  then exists msg, e = ValueError msg
  else exists msg, e = OverflowError msg.
Proof.
  unfold datetime_ymd.
  destruct (fits_C_int y && fits_C_int m && fits_C_int d); cbn [negb].
  - repeat case_match; intros Hr; inversion Hr; eauto.
  - intros Hr. inversion Hr. eauto.
Qed.

Lemma datetime_ymd_returns y m d r :
  datetime_ymd y m d = Returns r ->
  fits_C_int y && fits_C_int m = true /\ 1 <= y <= 9999 /\ 1 <= m <= 12.
Proof.
  unfold datetime_ymd, MINYEAR, MAXYEAR.
  destruct (fits_C_int y && fits_C_int m) eqn:Hfits; cbn [andb negb]; [| discriminate].
  destruct (fits_C_int d); cbn [negb]; [| discriminate].
  destruct ((1 <=? y) && (y <=? 9999)) eqn:Hy; cbn; [| discriminate].
  destruct ((1 <=? m) && (m <=? 12)) eqn:Hm; cbn; [| discriminate].
  intros _. apply andb_true_iff in Hy, Hm. split; [reflexivity | lia].
Qed.

Lemma fits_C_int_small n : - 2 ^ 31 <= n < 2 ^ 31 -> fits_C_int n = true.
Proof. intros H. unfold fits_C_int. apply andb_true_iff. lia. Qed.

Lemma month_window_cases year month :
  (exists w, month_window year month = Returns w) \/
  (fits_C_int year && fits_C_int month = true /\
   exists msg, month_window year month = Raises (ValueError msg)) \/
  (fits_C_int year && fits_C_int month = false /\
   exists msg, month_window year month = Raises (OverflowError msg)).
Proof.
  unfold month_window.
  destruct (datetime_ymd year month 1) as [s|e] eqn:Hs; cbn.
  - apply datetime_ymd_returns in Hs. destruct Hs as (Hfits & Hy & Hm).
    destruct (if month =? 12 then datetime_ymd (year + 1) 1 1
              else datetime_ymd year (month + 1) 1) as [e'|e'] eqn:He; cbn.
    + left. eauto.
    + right. left. split; [exact Hfits |].
      destruct (month =? 12); apply datetime_ymd_raises in He;
        rewrite !fits_C_int_small in He by lia; destruct He as [msg ->]; eauto.
  - right. apply datetime_ymd_raises in Hs.
    replace (fits_C_int 1) with true in Hs by reflexivity.
    rewrite andb_true_r in Hs.
    destruct (fits_C_int year && fits_C_int month);
      [left | right]; (split; [reflexivity |]); destruct Hs as [msg ->]; eauto.
Qed.

Lemma month_window_returns year month w :
  month_window year month = Returns w ->
  1 <= year <= 9999 /\ 1 <= month <= 12 /\ ~ (year = 9999 /\ month = 12).
Proof.
  unfold month_window.
  destruct (datetime_ymd year month 1) as [s|e] eqn:Hs; cbn; [| discriminate].
  apply datetime_ymd_returns in Hs.
  destruct (month =? 12) eqn:E.
  - destruct (datetime_ymd (year + 1) 1 1) as [e'|e'] eqn:He; cbn; [| discriminate].
    apply datetime_ymd_returns in He. intros _. lia.
  - apply Z.eqb_neq in E. intros _. lia.
Qed.

(** X2 ([get_monthly_analytics], the two [datetime(...)] calls): a report
    is returned exactly for a year in 1..9999 and a month in 1..12 other than
    December 9999, whatever the database holds.  For every other year and
    month the handler raises: [ValueError] when both fit a C [int], and
    [OverflowError] when one of them does not. *)
Theorem monthly_report_exists_iff_valid_month db year month :
  ((exists r, get_monthly_analytics db year month = Returns r) <->
   (1 <= year <= 9999 /\ 1 <= month <= 12 /\ ~ (year = 9999 /\ month = 12))) /\
  ((exists r, get_monthly_analytics db year month = Returns r) \/
   (fits_C_int year && fits_C_int month = true /\
    exists msg, get_monthly_analytics db year month = Raises (ValueError msg)) \/
   (fits_C_int year && fits_C_int month = false /\
    exists msg, get_monthly_analytics db year month = Raises (OverflowError msg))).
Proof.
  assert (Hgo : forall w, month_window year month = Returns w ->
                 exists r, get_monthly_analytics db year month = Returns r).
  { intros w Hw. unfold get_monthly_analytics.
    rewrite (monthly_transactions_ok db year month w Hw). cbn. eauto. }
  assert (Hraise : forall e, month_window year month = Raises e ->
                    get_monthly_analytics db year month = Raises e).
  { intros e He. unfold get_monthly_analytics, monthly_transactions.
    rewrite He. reflexivity. }
  split; [split |].
  - intros [r Hr].
    destruct (month_window_cases year month)
      as [[w Hw] | [(_ & msg & Hmsg) | (_ & msg & Hmsg)]].
    + eapply month_window_returns, Hw.
    + rewrite (Hraise _ Hmsg) in Hr. discriminate.
    + rewrite (Hraise _ Hmsg) in Hr. discriminate.
  - intros (Hy & Hm & Hl). eapply Hgo, month_window_ok; assumption.
  - destruct (month_window_cases year month)
      as [[w Hw] | [(Hfits & msg & Hmsg) | (Hfits & msg & Hmsg)]].
    + left. eapply Hgo, Hw.
    + right. left. split; [exact Hfits |]. exists msg. apply Hraise, Hmsg.
    + right. right. split; [exact Hfits |]. exists msg. apply Hraise, Hmsg.
Qed.

(** A year beyond a C [int], with nothing stored: [OverflowError]. *)
Example monthly_report_of_year_2147483648 :
  exists msg,
    get_monthly_analytics empty_db 2147483648 1 = Raises (OverflowError msg).
Proof. eexists. reflexivity. Qed.

(** Month 13, with nothing stored: [ValueError]. *)
Example monthly_report_of_month_13 :
  exists msg, get_monthly_analytics empty_db 2024 13 = Raises (ValueError msg).
Proof. eexists. reflexivity. Qed.

Lemma filter_none {A} (q : A -> bool) (l : list A) :
  Forall (fun x => q x = false) l -> List.filter q l = [].
Proof.
  induction 1 as [|x l Hx _ IH]; [reflexivity |]. cbn. rewrite Hx. exact IH.
Qed.

(** X3 ([get_monthly_analytics] on a month without transactions): when no
    stored transaction is dated in the window, the report is returned with
    every total at 0, a savings percentage of 0, an empty breakdown and a
    count of 0. *)
Theorem empty_month_gives_zero_report db year month w :
  month_window year month = Returns w ->
  Forall (fun t => date_in_window w.1 w.2 t = false) (transactions db) ->
  get_monthly_analytics db year month =
    Returns (mk_MonthlyReport year month 0%Qc 0%Qc 0%Qc 0%Qc ∅ 0%nat).
Proof.
  intros Hw Hnone. unfold get_monthly_analytics.
  rewrite (monthly_transactions_ok db year month w Hw).
  unfold Mongo.find_to_list. rewrite (filter_none _ _ Hnone). cbn.
  f_equal. f_equal; apply Qc_is_canon; reflexivity.
Qed.

Lemma empty_month_gives_zero_report_witness :
  get_monthly_analytics db_food_expense 2024 7 =
    Returns (mk_MonthlyReport 2024 7 0%Qc 0%Qc 0%Qc 0%Qc ∅ 0%nat).
Proof.
  apply (empty_month_gives_zero_report db_food_expense 2024 7
           (first_of_month 2024 7, first_of_next_month 2024 7)).
  - reflexivity.
  - repeat constructor.
Defined.

Lemma in_calendar_month_window year month t :
  1 <= month <= 12 -> valid_datetime (tx_date t) ->
  date_in_window (first_of_month year month) (first_of_next_month year month) t =
    in_calendar_month year month t.
Proof.
  intros Hm Hv. apply eq_true_iff_eq.
  rewrite date_in_window_spec, (in_month_window_iff year month _ Hm Hv).
  unfold in_calendar_month. rewrite andb_true_iff, !Z.eqb_eq. reflexivity.
Qed.

(** X4 ([get_monthly_analytics], window and cap together): when every
    stored date is a date a [datetime] can hold and at most 1000 stored
    transactions are dated in month [month] of [year], the report is computed
    over exactly the transactions of that calendar month, from its first
    instant to its last, in stored order. *)
Theorem report_covers_calendar_month db year month :
  1 <= year <= 9999 -> 1 <= month <= 12 -> ~ (year = 9999 /\ month = 12) ->
  Forall (fun t => valid_datetime (tx_date t)) (transactions db) ->
  (length (List.filter (in_calendar_month year month) (transactions db)) <= 1000)%nat ->
  exists r,
    get_monthly_analytics db year month = Returns r /\
    monthly_transactions db year month =
      Returns (List.filter (in_calendar_month year month) (transactions db)) /\
    transaction_count r =
      length (List.filter (in_calendar_month year month) (transactions db)) /\
    total_income r =
      total_of INCOME (List.filter (in_calendar_month year month) (transactions db)) /\
    total_expense r =
      total_of EXPENSE (List.filter (in_calendar_month year month) (transactions db)).
Proof.
  intros Hy Hm Hl Hvalid Hcap.
  assert (Htx : monthly_transactions db year month =
                Returns (List.filter (in_calendar_month year month) (transactions db))).
  { rewrite (monthly_transactions_ok db year month _ (month_window_ok year month Hy Hm Hl)).
    unfold Mongo.find_to_list. cbn [fst snd]. f_equal.
    rewrite (filter_ext_in _ (in_calendar_month year month)).
    - apply take_ge. exact Hcap.
    - intros t Ht. apply in_calendar_month_window; [exact Hm |].
      rewrite Forall_forall in Hvalid. apply Hvalid, list_elem_of_In, Ht. }
  unfold get_monthly_analytics. rewrite Htx. cbn.
  eexists. split; [reflexivity |]. cbn. repeat split.
Qed.

Lemma report_covers_calendar_month_witness :
  exists r,
    get_monthly_analytics db_food_expense 2024 6 = Returns r /\
    monthly_transactions db_food_expense 2024 6 =
      Returns (List.filter (in_calendar_month 2024 6) (transactions db_food_expense)) /\
    transaction_count r =
      length (List.filter (in_calendar_month 2024 6) (transactions db_food_expense)) /\
    total_income r =
      total_of INCOME (List.filter (in_calendar_month 2024 6) (transactions db_food_expense)) /\
    total_expense r =
      total_of EXPENSE (List.filter (in_calendar_month 2024 6) (transactions db_food_expense)).
Proof.
  apply (report_covers_calendar_month db_food_expense 2024 6); try lia.
  - constructor; [| constructor]. unfold valid_datetime, MINYEAR, MAXYEAR. cbn. lia.
  - cbn. lia.
Defined.

(** The six entries, as the loop appends them. *)
Lemma last_six_months_entries db now :
  1 <= dt_year now <= 9999 -> 1 <= dt_month now <= 12 ->
  ~ (dt_year now = 1 /\ dt_month now <= 5) ->
  ~ (dt_year now = 9999 /\ dt_month now = 12) ->
  get_last_six_months db now =
    Returns [ month_summary 1000 db (months_ago (dt_year now) (dt_month now) 5);
              month_summary 1000 db (months_ago (dt_year now) (dt_month now) 4);
              month_summary 1000 db (months_ago (dt_year now) (dt_month now) 3);
              month_summary 1000 db (months_ago (dt_year now) (dt_month now) 2);
              month_summary 1000 db (months_ago (dt_year now) (dt_month now) 1);
              month_summary 1000 db (months_ago (dt_year now) (dt_month now) 0) ].
Proof.
  intros Hy Hm Hfirst Hlast. unfold get_last_six_months.
  cbn [six_months_loop].
  repeat (rewrite six_months_entry_ok by (try assumption; lia);
          cbn [mbind outcome_bind Py.bind]).
  reflexivity.
Qed.

(** X5 ([get_last_six_months] against [get_monthly_analytics]): each of
    the six records carries the year, the income and the expense that the
    monthly report of its month returns. *)
Theorem six_months_agree_with_monthly_reports db now :
  1 <= dt_year now <= 9999 -> 1 <= dt_month now <= 12 ->
  ~ (dt_year now = 1 /\ dt_month now <= 5) ->
  ~ (dt_year now = 9999 /\ dt_month now = 12) ->
  exists rs,
    get_last_six_months db now = Returns rs /\
    length rs = 6%nat /\
    forall k e,
      rs !! k = Some e ->
      exists r,
        get_monthly_analytics db
          (months_ago (dt_year now) (dt_month now) (5 - Z.of_nat k)).1
          (months_ago (dt_year now) (dt_month now) (5 - Z.of_nat k)).2 = Returns r /\
        ms_year e = report_year r /\
        ms_income e = total_income r /\
        ms_expense e = total_expense r.
Proof.
  intros Hy Hm Hfirst Hlast.
  assert (Hentry : forall i, 0 <= i <= 5 ->
            exists r,
              get_monthly_analytics db (months_ago (dt_year now) (dt_month now) i).1
                (months_ago (dt_year now) (dt_month now) i).2 = Returns r /\
              ms_year (month_summary 1000 db (months_ago (dt_year now) (dt_month now) i))
                = report_year r /\
              ms_income (month_summary 1000 db (months_ago (dt_year now) (dt_month now) i))
                = total_income r /\
              ms_expense (month_summary 1000 db (months_ago (dt_year now) (dt_month now) i))
                = total_expense r).
  { intros i Hi.
    destruct (months_ago_range (dt_year now) (dt_month now) i Hm Hi) as [Hr Hc].
    destruct (months_ago (dt_year now) (dt_month now) i) as [y m] eqn:E.
    cbn [fst snd] in *.
    assert (Hy' : 1 <= y <= 9999).
    { destruct Hc as [[Hc _] | [Hc ?]]; inversion Hc; subst; [lia |].
      destruct (Z.eq_dec (dt_year now) 1) as [E1|]; [| lia].
      exfalso. apply Hfirst. split; [exact E1 | lia]. }
    assert (Hl' : ~ (y = 9999 /\ m = 12)).
    { intros [-> ->]. destruct Hc as [[Hc ?] | [Hc ?]]; inversion Hc; [| lia].
      apply Hlast. split; [congruence | lia]. }
    unfold get_monthly_analytics.
    rewrite (monthly_transactions_ok db y m _ (month_window_ok y m Hy' Hr Hl')).
    cbn. eexists. split; [reflexivity |]. repeat split. }
  eexists. split; [apply last_six_months_entries; assumption |].
  split; [reflexivity |].
  intros k e Hk.
  do 6 (destruct k as [|k]; [cbn in Hk; inversion Hk; subst e; apply Hentry; lia |]).
  discriminate.
Qed.

(** X5 at March 2024. *)
Lemma six_months_agree_with_monthly_reports_witness :
  exists rs,
    get_last_six_months db_food_expense mid_march_2024 = Returns rs /\
    length rs = 6%nat /\
    forall k e,
      rs !! k = Some e ->
      exists r,
        get_monthly_analytics db_food_expense
          (months_ago 2024 3 (5 - Z.of_nat k)).1
          (months_ago 2024 3 (5 - Z.of_nat k)).2 = Returns r /\
        ms_year e = report_year r /\
        ms_income e = total_income r /\
        ms_expense e = total_expense r.
Proof.
  apply (six_months_agree_with_monthly_reports db_food_expense mid_march_2024);
    cbn; lia.
Defined.

(** ** Creation *)





(** X8 ([create_category] then [get_categories]): a category created in an
    empty catalog is the only one the next listing returns; the eight
    defaults are not inserted any more. *)
Theorem created_category_prevents_seeding uuid4 utcnow uuid4' utcnow' db name color icon :
  categories db = [] ->
  exists c db',
    create_category uuid4 utcnow db (mk_CategoryCreate name (Some color) (Some icon))
      = (Returns c, db') /\
    name_color_icon c = (name, color, icon) /\
    get_categories uuid4' utcnow' db' = ([c], db').
Proof.
  intros Hempty. destruct db as [cats txs rems]. cbn in Hempty. subst cats.
  do 2 eexists. split; [reflexivity |]. split; reflexivity.
Qed.

Lemma created_category_prevents_seeding_witness :
  exists c db',
    create_category sample_uuid4 sample_utcnow empty_db
        (mk_CategoryCreate "Pets" (Some "#112233") (Some "*"))
      = (Returns c, db') /\
    name_color_icon c = ("Pets", "#112233", "*") /\
    get_categories sample_uuid4 sample_utcnow db' = ([c], db').
Proof.
  apply (created_category_prevents_seeding sample_uuid4 sample_utcnow
           sample_uuid4 sample_utcnow empty_db).
  reflexivity.
Defined.

(** X9 ([create_category], [create_transaction]: defaults and nulls): a
    category created without [color] and [icon] gets the model's defaults and
    is appended to the collection; an explicit null for [color] or [icon], or
    for the [category_name] of a transaction, fails validation with a
    [ValueError] and stores nothing, while a null [note] is stored. *)
Theorem creation_defaults_and_nulls uuid4 utcnow db name given transaction :
  (exists c,
     create_category uuid4 utcnow db (CategoryCreate_of_body name Missing Missing)
       = (Returns c,
          mk_Db (categories db ++ [c]) (transactions db) (reminders db)) /\
     name_color_icon c = (name, "#6366F1", "💰")) /\
  (exists msg,
     create_category uuid4 utcnow db (CategoryCreate_of_body name Null given)
       = (Raises (ValueError msg), db)) /\
  (exists msg,
     create_category uuid4 utcnow db (CategoryCreate_of_body name given Null)
       = (Raises (ValueError msg), db)) /\
  (tc_category_name transaction = None ->
   exists msg,
     create_transaction uuid4 utcnow db transaction = (Raises (ValueError msg), db)) /\
  (tc_category_name transaction <> None -> tc_note transaction = None ->
   exists t,
     create_transaction uuid4 utcnow db transaction
       = (Returns t, mk_Db (categories db) (transactions db ++ [t]) (reminders db)) /\
     tx_note t = Null).
Proof.
  split; [| split; [| split; [| split]]].
  - eexists. split; reflexivity.
  - unfold create_category, Category_of_create. cbn. destruct given; eauto.
  - unfold create_category, Category_of_create. cbn. destruct given; cbn; eauto.
  - intros H. unfold create_transaction, Transaction_of_create. rewrite H. eauto.
  - intros Hn Hnote. unfold create_transaction, Transaction_of_create.
    destruct (tc_category_name transaction); [| congruence].
    rewrite Hnote. eexists. split; reflexivity.
Qed.

(** ** Deletion *)

Section DeleteOne.

Context {A : Type}.
Variable q : A -> bool.

Lemma delete_one_no_match coll :
  Forall (fun d => q d = false) coll ->
  Collection.delete_one q coll = (0, coll).
Proof.
  induction 1 as [|d coll Hd _ IH]; [reflexivity |].
  cbn. rewrite Hd, IH. reflexivity.
Qed.

Lemma delete_one_first_match pre d post :
  Forall (fun d => q d = false) pre -> q d = true ->
  Collection.delete_one q (pre ++ d :: post)%list = (1, (pre ++ post)%list).
Proof.
  intros Hpre Hd. induction Hpre as [|x pre Hx _ IH]; cbn.
  - rewrite Hd. reflexivity.
  - rewrite Hx, IH. reflexivity.
Qed.

End DeleteOne.

(** X10 ([delete_category]): deleting an identifier removes the first
    category that carries it and nothing else: the other categories keep
    their order, and the transactions, also those that refer to the deleted
    category, and the reminders stay as they were. *)
Theorem delete_category_removes_one_record pre c post txs rems :
  Forall (fun d => String.eqb (cat_id d) (cat_id c) = false) pre ->
  delete_category (mk_Db (pre ++ c :: post) txs rems) (cat_id c) =
    (Returns "Category deleted successfully", mk_Db (pre ++ post) txs rems).
Proof.
  intros Hpre. unfold delete_category. cbn [categories transactions reminders].
  rewrite (delete_one_first_match _ pre c post Hpre (String.eqb_refl _)).
  reflexivity.
Qed.

Lemma delete_category_removes_one_record_witness :
  delete_category db_one_of_each "c1" =
    (Returns "Category deleted successfully",
     mk_Db [] [lunch_transaction] [rent_reminder]).
Proof.
  exact (delete_category_removes_one_record [] food_category []
           [lunch_transaction] [rent_reminder] (List.Forall_nil _)).
Defined.

(** X11 ([delete_transaction], [delete_reminder]): deleting an identifier
    removes the first transaction, or reminder, that carries it and leaves
    every other record of the database as it was. *)
Theorem delete_removes_one_record cats pre_t t post_t pre_r r post_r :
  Forall (fun d => String.eqb (tx_id d) (tx_id t) = false) pre_t ->
  Forall (fun d => String.eqb (rem_id d) (rem_id r) = false) pre_r ->
  delete_transaction (mk_Db cats (pre_t ++ t :: post_t) (pre_r ++ r :: post_r)) (tx_id t) =
    (Returns "Transaction deleted successfully",
     mk_Db cats (pre_t ++ post_t) (pre_r ++ r :: post_r)) /\
  delete_reminder (mk_Db cats (pre_t ++ t :: post_t) (pre_r ++ r :: post_r)) (rem_id r) =
    (Returns "Reminder deleted successfully",
     mk_Db cats (pre_t ++ t :: post_t) (pre_r ++ post_r)).
Proof.
  intros Ht Hr. split.
  - unfold delete_transaction. cbn [categories transactions reminders].
    rewrite (delete_one_first_match _ pre_t t post_t Ht (String.eqb_refl _)).
    reflexivity.
  - unfold delete_reminder. cbn [categories transactions reminders].
    rewrite (delete_one_first_match _ pre_r r post_r Hr (String.eqb_refl _)).
    reflexivity.
Qed.

Lemma delete_removes_one_record_witness :
  delete_transaction db_one_of_each "t1" =
    (Returns "Transaction deleted successfully",
     mk_Db [food_category] [] [rent_reminder]) /\
  delete_reminder db_one_of_each "r1" =
    (Returns "Reminder deleted successfully",
     mk_Db [food_category] [lunch_transaction] []).
Proof.
  exact (delete_removes_one_record [food_category] [] lunch_transaction []
           [] rent_reminder [] (List.Forall_nil _) (List.Forall_nil _)).
Defined.

(** X12 (the three delete handlers on an unknown identifier): when no
    record of the collection carries the identifier, the handler answers 404
    and the database is unchanged. *)
Theorem delete_unknown_id_is_not_found db id :
  (Forall (fun c => String.eqb (cat_id c) id = false) (categories db) ->
   delete_category db id = (Raises (HTTPException 404 "Category not found"), db)) /\
  (Forall (fun t => String.eqb (tx_id t) id = false) (transactions db) ->
   delete_transaction db id = (Raises (HTTPException 404 "Transaction not found"), db)) /\
  (Forall (fun r => String.eqb (rem_id r) id = false) (reminders db) ->
   delete_reminder db id = (Raises (HTTPException 404 "Reminder not found"), db)).
Proof.
  destruct db as [cats txs rems]. repeat split; intros H; cbn in H.
  - unfold delete_category. cbn [categories transactions reminders].
    rewrite (delete_one_no_match _ _ H). reflexivity.
  - unfold delete_transaction. cbn [categories transactions reminders].
    rewrite (delete_one_no_match _ _ H). reflexivity.
  - unfold delete_reminder. cbn [categories transactions reminders].
    rewrite (delete_one_no_match _ _ H). reflexivity.
Qed.

(** X13 ([create_category] then [delete_category]): deleting the category a
    creation returned, when no stored category had its identifier, gives the
    database back as it was before the creation. *)
Theorem create_then_delete_category_restores uuid4 utcnow db name color icon :
  Forall (fun c => String.eqb (cat_id c) (uuid4 O) = false) (categories db) ->
  exists c db',
    create_category uuid4 utcnow db (mk_CategoryCreate name (Some color) (Some icon))
      = (Returns c, db') /\
    delete_category db' (cat_id c) = (Returns "Category deleted successfully", db).
Proof.
  intros Hfresh. destruct db as [cats txs rems]. cbn in Hfresh.
  set (c := new_Category uuid4 utcnow 0 (name, color, icon)).
  exists c, (mk_Db (cats ++ [c]) txs rems). split; [reflexivity |].
  unfold delete_category. cbn [categories transactions reminders].
  rewrite (delete_one_first_match (fun d => String.eqb (cat_id d) (cat_id c))
             cats c [] Hfresh (String.eqb_refl (cat_id c))).
  rewrite app_nil_r. reflexivity.
Qed.

Lemma create_then_delete_category_restores_witness :
  exists c db',
    create_category sample_uuid4 sample_utcnow db_one_of_each
        (mk_CategoryCreate "Pets" (Some "#112233") (Some "*"))
      = (Returns c, db') /\
    delete_category db' (cat_id c)
      = (Returns "Category deleted successfully", db_one_of_each).
Proof.
  apply (create_then_delete_category_restores sample_uuid4 sample_utcnow db_one_of_each).
  constructor; [reflexivity | constructor].
Defined.

(** ** Updates that change a record *)

(** X14 ([update_category]): a patch that changes at least one field of
    the first category with the identifier rewrites that record in place:
    the supplied fields take the supplied values, [id], [created_at] and the
    fields left out keep theirs; every other record of the database is
    unchanged, and the rewritten record is returned. *)
Theorem update_category_changes_supplied_fields pre c post txs rems p :
  Forall (fun d => String.eqb (cat_id d) (cat_id c) = false) pre ->
  let c' := mk_Category (cat_id c)
              (default (cat_name c) (cu_name p))
              (default (cat_color c) (cu_color p))
              (default (cat_icon c) (cu_icon p))
              (cat_created_at c) in
  c' <> c ->
  update_category (mk_Db (pre ++ c :: post) txs rems) (cat_id c) p =
    (Returns c', mk_Db (pre ++ c' :: post) txs rems).
Proof.
  intros Hpre c' Hne.
  assert (Hset : Category_set (CategoryUpdate_items p) c = c')
    by apply Category_set_fields.
  assert (Hitems : CategoryUpdate_items p <> []).
  { intros E. rewrite E in Hset. cbn in Hset. congruence. }
  rewrite (update_category_existing pre c post txs rems p Hitems Hpre).
  cbv zeta. rewrite Hset. destruct (decide (c' = c)); [contradiction | reflexivity].
Qed.

Lemma update_category_changes_supplied_fields_witness :
  update_category db_one_of_each "c1" (mk_CategoryUpdate (Some "Groceries") None None) =
    (Returns (mk_Category "c1" "Groceries" "#EF4444" "*" mid_june_2024),
     mk_Db [mk_Category "c1" "Groceries" "#EF4444" "*" mid_june_2024]
       [lunch_transaction] [rent_reminder]).
Proof.
  apply (update_category_changes_supplied_fields [] food_category []
           [lunch_transaction] [rent_reminder]
           (mk_CategoryUpdate (Some "Groceries") None None) (List.Forall_nil _)).
  discriminate.
Defined.

(** X15 ([update_transaction]): a patch that changes at least one field of
    the first transaction with the identifier rewrites that record in place:
    the supplied fields take the supplied values, [id], [created_at] and the
    fields left out keep theirs; every other record of the database is
    unchanged, and the model of the rewritten record is returned. *)
Theorem update_transaction_changes_supplied_fields cats pre t post rems p :
  Forall (fun d => String.eqb (tx_id d) (tx_id t) = false) pre ->
  let t' := mk_Transaction (tx_id t)
              (default (tx_amount t) (tu_amount p))
              (default (tx_category_id t) (tu_category_id p))
              (match tu_category_name p with Some v => Some v | None => tx_category_name t end)
              (default (tx_type t) (tu_type p))
              (default (tx_date t) (tu_date p))
              (match tu_note p with Some v => Value v | None => tx_note t end)
              (default (tx_is_recurring t) (tu_is_recurring p))
              (tx_created_at t) in
  t' <> t ->
  update_transaction (mk_Db cats (pre ++ t :: post) rems) (tx_id t) p =
    (Returns (Transaction_of_doc t'), mk_Db cats (pre ++ t' :: post) rems).
Proof.
  intros Hpre t' Hne.
  assert (Hset : Transaction_set (TransactionUpdate_items p) t = t')
    by apply Transaction_set_fields.
  assert (Hitems : TransactionUpdate_items p <> []).
  { intros E. rewrite E in Hset. cbn in Hset. congruence. }
  rewrite (update_transaction_existing cats pre t post rems p Hitems Hpre).
  cbv zeta. rewrite Hset. destruct (decide (t' = t)); [contradiction | reflexivity].
Qed.

Lemma update_transaction_changes_supplied_fields_witness :
  update_transaction db_one_of_each "t1"
    (mk_TransactionUpdate None None None (Some INCOME) None None None) =
    (Returns (mk_Transaction "t1" (Q2Qc 50) "c1" (Some "Food") INCOME mid_june_2024
                (Value "lunch") false mid_june_2024),
     mk_Db [food_category]
       [mk_Transaction "t1" (Q2Qc 50) "c1" (Some "Food") INCOME mid_june_2024
          (Value "lunch") false mid_june_2024]
       [rent_reminder]).
Proof.
  apply (update_transaction_changes_supplied_fields [food_category] [] lunch_transaction
           [] [rent_reminder]
           (mk_TransactionUpdate None None None (Some INCOME) None None None)
           (List.Forall_nil _)).
  discriminate.
Defined.

(** X16 ([update_reminder]): a patch that changes at least one field of
    the first reminder with the identifier rewrites that record in place:
    the supplied fields take the supplied values, [id], [created_at] and the
    fields left out keep theirs; every other record of the database is
    unchanged, and the rewritten record is returned. *)
Theorem update_reminder_changes_supplied_fields cats txs pre r post p :
  Forall (fun d => String.eqb (rem_id d) (rem_id r) = false) pre ->
  let r' := mk_Reminder (rem_id r)
              (default (rem_title r) (ru_title p))
              (match ru_message p with Some v => Some v | None => rem_message r end)
              (default (rem_date r) (ru_date p))
              (default (rem_time r) (ru_time p))
              (default (rem_is_recurring r) (ru_is_recurring p))
              (default (rem_is_enabled r) (ru_is_enabled p))
              (rem_created_at r) in
  r' <> r ->
  update_reminder (mk_Db cats txs (pre ++ r :: post)) (rem_id r) p =
    (Returns r', mk_Db cats txs (pre ++ r' :: post)).
Proof.
  intros Hpre r' Hne.
  assert (Hset : Reminder_set (ReminderUpdate_items p) r = r')
    by apply Reminder_set_fields.
  assert (Hitems : ReminderUpdate_items p <> []).
  { intros E. rewrite E in Hset. cbn in Hset. congruence. }
  rewrite (update_reminder_existing cats txs pre r post p Hitems Hpre).
  cbv zeta. rewrite Hset. destruct (decide (r' = r)); [contradiction | reflexivity].
Qed.

Lemma update_reminder_changes_supplied_fields_witness :
  update_reminder db_one_of_each "r1"
    (mk_ReminderUpdate None None None None None (Some false)) =
    (Returns (mk_Reminder "r1" "Rent" (Some "pay the rent") mid_june_2024 "09:00" false
                false mid_june_2024),
     mk_Db [food_category] [lunch_transaction]
       [mk_Reminder "r1" "Rent" (Some "pay the rent") mid_june_2024 "09:00" false
          false mid_june_2024]).
Proof.
  apply (update_reminder_changes_supplied_fields [food_category] [lunch_transaction] []
           rent_reminder [] (mk_ReminderUpdate None None None None None (Some false))
           (List.Forall_nil _)).
  discriminate.
Defined.

(** X17 (the three update handlers on an unknown identifier): a patch with
    at least one field, sent for an identifier that no record of the
    collection carries, is answered with 404 and changes nothing. *)
Theorem update_unknown_id_is_not_found db id pc pt pr :
  (CategoryUpdate_items pc <> [] ->
   Forall (fun c => String.eqb (cat_id c) id = false) (categories db) ->
   update_category db id pc = (Raises (HTTPException 404 "Category not found"), db)) /\
  (TransactionUpdate_items pt <> [] ->
   Forall (fun t => String.eqb (tx_id t) id = false) (transactions db) ->
   update_transaction db id pt
     = (Raises (HTTPException 404 "Transaction not found"), db)) /\
  (ReminderUpdate_items pr <> [] ->
   Forall (fun r => String.eqb (rem_id r) id = false) (reminders db) ->
   update_reminder db id pr = (Raises (HTTPException 404 "Reminder not found"), db)).
Proof.
  split; [| split].
  - apply update_category_missing.
  - apply update_transaction_missing.
  - apply update_reminder_missing.
Qed.

Lemma Category_set_twice items c :
  Category_set (CategoryUpdate_items items) (Category_set (CategoryUpdate_items items) c)
  = Category_set (CategoryUpdate_items items) c.
Proof.
  rewrite !Category_set_fields. cbn.
  destruct items as [[?|] [?|] [?|]]; reflexivity.
Qed.

(** X18 ([update_category] sent twice): after an update that succeeded, the
    same patch sent again for the same identifier is answered with 404
    "Category not found" and leaves the database as the first update left
    it. *)
Theorem repeated_update_is_not_found db id p c' db' :
  update_category db id p = (Returns c', db') ->
  update_category db' id p = (Raises (HTTPException 404 "Category not found"), db').
Proof.
  intros Hfirst.
  assert (Hitems : CategoryUpdate_items p <> []).
  { intros E. unfold update_category in Hfirst. rewrite E in Hfirst. discriminate. }
  destruct db as [cats txs rems].
  destruct (first_match_split (fun c => String.eqb (cat_id c) id) cats)
    as [Hnone | (pre & c & post & -> & Hpre & Hc)].
  - rewrite (update_category_missing (mk_Db cats txs rems) id p Hitems Hnone) in Hfirst.
    discriminate.
  - apply String.eqb_eq in Hc. subst id.
    rewrite (update_category_existing pre c post txs rems p Hitems Hpre) in Hfirst.
    cbv zeta in Hfirst.
    set (c1 := Category_set (CategoryUpdate_items p) c) in *.
    destruct (decide (c1 = c)) as [E | Hne]; [discriminate |].
    inversion Hfirst; subst c' db'; clear Hfirst.
    assert (Hid : cat_id c1 = cat_id c) by apply Category_set_id.
    assert (Hidem : Category_set (CategoryUpdate_items p) c1 = c1)
      by apply Category_set_twice.
    clearbody c1. rewrite <- Hid in Hpre |- *.
    rewrite (update_category_existing pre c1 post txs rems p Hitems Hpre).
    cbv zeta. rewrite Hidem.
    destruct (decide (c1 = c1)); [reflexivity | contradiction].
Qed.

Lemma repeated_update_is_not_found_witness :
  update_category
    (mk_Db [mk_Category "c1" "Groceries" "#EF4444" "*" mid_june_2024]
       [lunch_transaction] [rent_reminder])
    "c1" (mk_CategoryUpdate (Some "Groceries") None None) =
  (Raises (HTTPException 404 "Category not found"),
   mk_Db [mk_Category "c1" "Groceries" "#EF4444" "*" mid_june_2024]
     [lunch_transaction] [rent_reminder]).
Proof.
  apply (repeated_update_is_not_found db_one_of_each "c1"
           (mk_CategoryUpdate (Some "Groceries") None None)
           (mk_Category "c1" "Groceries" "#EF4444" "*" mid_june_2024)).
  reflexivity.
Defined.

(** ** Listings *)

Lemma datetime_leb_total a b : datetime_leb a b = true \/ datetime_leb b a = true.
Proof.
  rewrite !datetime_leb_spec, !datetime_compare_not_Gt. lia.
Qed.

Lemma datetime_leb_trans a b c :
  datetime_leb a b = true -> datetime_leb b c = true -> datetime_leb a c = true.
Proof.
  rewrite !datetime_leb_spec, !datetime_compare_not_Gt. lia.
Qed.

#[local] Instance date_desc_total : Total date_desc.
Proof. intros a b. apply datetime_leb_total. Qed.

#[local] Instance date_desc_trans : Transitive date_desc.
Proof. intros a b c Hab Hbc. unfold date_desc in *. eapply datetime_leb_trans; eassumption. Qed.

#[local] Instance reminder_date_asc_total : Total reminder_date_asc.
Proof. intros a b. apply datetime_leb_total. Qed.

#[local] Instance reminder_date_asc_trans : Transitive reminder_date_asc.
Proof.
  intros a b c Hab Hbc. unfold reminder_date_asc in *.
  eapply datetime_leb_trans; eassumption.
Qed.

Lemma StronglySorted_take {A} (R : relation A) n (l : list A) :
  StronglySorted R l -> StronglySorted R (take n l).
Proof.
  intros H. rewrite <- (take_drop n l) in H.
  eapply StronglySorted_app_1_l, H.
Qed.

Lemma in_sorted_filter_take {A} (R : relation A) `{forall x y, Decision (R x y)}
    (q : A -> bool) n (l : list A) x :
  In x (take n (merge_sort R (List.filter q l))) -> In x l /\ q x = true.
Proof.
  intros Hx. apply list_elem_of_In, subseteq_take in Hx.
  rewrite merge_sort_Permutation in Hx.
  apply list_elem_of_In, filter_In in Hx. exact Hx.
Qed.

(** X19 ([get_transactions]): when the date parameters parse, the listing
    returns the models of at most 1000 stored transactions, latest date
    first, and every one of them passes each filter that was given: the
    type, the category identifier when it is not empty, and the inclusive
    date bounds. *)
Theorem get_transactions_sorted_and_filtered
    fromisoformat db type category_id start_date end_date gte lte :
  parse_bound fromisoformat start_date = Returns gte ->
  parse_bound fromisoformat end_date = Returns lte ->
  exists found,
    get_transactions fromisoformat db type category_id start_date end_date
      = Returns (map Transaction_of_doc found) /\
    (length found <= 1000)%nat /\
    StronglySorted (fun a b => datetime_leb (tx_date b) (tx_date a) = true) found /\
    forall t, In t found ->
      In t (transactions db) /\
      (forall ty, type = Some ty -> tx_type t = ty) /\
      (forall c, category_id = Some c -> c <> "" -> tx_category_id t = c) /\
      (forall lo, gte = Some lo -> datetime_leb lo (tx_date t) = true) /\
      (forall hi, lte = Some hi -> datetime_leb (tx_date t) hi = true).
Proof.
  intros Hgte Hlte. unfold get_transactions. rewrite Hgte, Hlte.
  cbn [mbind outcome_bind Py.bind mret outcome_ret].
  eexists. split; [reflexivity |]. split; [| split].
  - rewrite length_take. apply Nat.le_min_l.
  - apply StronglySorted_take.
    apply (StronglySorted_merge_sort date_desc).
  - intros t Ht. apply in_sorted_filter_take in Ht. destruct Ht as [Hin Hq].
    split; [exact Hin |].
    unfold matches_transaction_query, matches_query in Hq.
    cbn [tq_type tq_category_id tq_date q_gte q_lte] in Hq.
    apply andb_true_iff in Hq. destruct Hq as [Hq Hdate].
    apply andb_true_iff in Hq. destruct Hq as [Hty Hcat].
    apply andb_true_iff in Hdate. destruct Hdate as [Hlo Hhi].
    repeat split.
    + intros ty ->. unfold has_type in Hty. apply bool_decide_eq_true in Hty. exact Hty.
    + intros c -> Hc. destruct c as [|a c]; [congruence |].
      cbn [given_text] in Hcat. apply String.eqb_eq in Hcat. exact Hcat.
    + intros lo ->. exact Hlo.
    + intros hi ->. exact Hhi.
Qed.

Lemma get_transactions_sorted_and_filtered_witness :
  exists found,
    get_transactions sample_fromisoformat db_one_of_each (Some EXPENSE) (Some "c1")
        (Some "2024-06-01T00:00:00") (Some "2024-07-01T00:00:00")
      = Returns (map Transaction_of_doc found) /\
    (length found <= 1000)%nat /\
    StronglySorted (fun a b => datetime_leb (tx_date b) (tx_date a) = true) found /\
    forall t, In t found ->
      In t (transactions db_one_of_each) /\
      (forall ty, Some EXPENSE = Some ty -> tx_type t = ty) /\
      (forall c, Some "c1" = Some c -> c <> "" -> tx_category_id t = c) /\
      (forall lo, Some (mk_datetime 2024 6 1 0) = Some lo ->
                  datetime_leb lo (tx_date t) = true) /\
      (forall hi, Some (mk_datetime 2024 7 1 0) = Some hi ->
                  datetime_leb (tx_date t) hi = true).
Proof.
  apply (get_transactions_sorted_and_filtered sample_fromisoformat db_one_of_each
           (Some EXPENSE) (Some "c1") (Some "2024-06-01T00:00:00")
           (Some "2024-07-01T00:00:00")); reflexivity.
Defined.

(** X20 ([get_transactions] below the cap): when the date parameters parse
    and at most 1000 stored transactions pass the filters, the listing
    returns the models of all of them, each as often as it is stored. *)
Theorem get_transactions_returns_all_matches
    fromisoformat db type category_id start_date end_date gte lte :
  parse_bound fromisoformat start_date = Returns gte ->
  parse_bound fromisoformat end_date = Returns lte ->
  let query := mk_TransactionQuery type (given_text category_id) (mk_DateQuery gte lte) in
  (length (List.filter (matches_transaction_query query) (transactions db)) <= 1000)%nat ->
  exists found,
    get_transactions fromisoformat db type category_id start_date end_date
      = Returns (map Transaction_of_doc found) /\
    found ≡ₚ List.filter (matches_transaction_query query) (transactions db).
Proof.
  intros Hgte Hlte query Hcap. unfold get_transactions. rewrite Hgte, Hlte.
  cbn [mbind outcome_bind Py.bind mret outcome_ret].
  eexists. split; [reflexivity |]. fold query.
  rewrite take_ge.
  - apply merge_sort_Permutation.
  - rewrite merge_sort_Permutation. exact Hcap.
Qed.

Lemma get_transactions_returns_all_matches_witness :
  exists found,
    get_transactions sample_fromisoformat db_one_of_each None None None None
      = Returns (map Transaction_of_doc found) /\
    found ≡ₚ List.filter
               (matches_transaction_query
                  (mk_TransactionQuery None None (mk_DateQuery None None)))
               (transactions db_one_of_each).
Proof.
  apply (get_transactions_returns_all_matches sample_fromisoformat db_one_of_each
           None None None None None None); try reflexivity.
  cbn. lia.
Defined.

(** X21 ([get_transactions] with the bounds the wrong way round): when the
    start date parses to a moment after the end date, no transaction can pass
    both bounds and the listing is empty, without an error. *)
Theorem get_transactions_inverted_range_is_empty
    fromisoformat db type category_id start_date end_date lo hi :
  parse_bound fromisoformat start_date = Returns (Some lo) ->
  parse_bound fromisoformat end_date = Returns (Some hi) ->
  datetime_ltb hi lo = true ->
  get_transactions fromisoformat db type category_id start_date end_date = Returns [].
Proof.
  intros Hgte Hlte Hinv. unfold get_transactions. rewrite Hgte, Hlte.
  cbn [mbind outcome_bind Py.bind mret outcome_ret].
  rewrite filter_none; [reflexivity |].
  apply Forall_forall. intros t _.
  unfold matches_transaction_query, matches_query.
  cbn [tq_type tq_category_id tq_date q_gte q_lte].
  destruct (datetime_leb lo (tx_date t)) eqn:Hlo; [| now rewrite andb_false_r].
  destruct (datetime_leb (tx_date t) hi) eqn:Hhi; [| now rewrite !andb_false_r].
  exfalso. pose proof (datetime_leb_trans _ _ _ Hlo Hhi) as Hle.
  apply datetime_leb_spec in Hle. apply datetime_ltb_spec in Hinv.
  rewrite datetime_compare_not_Gt in Hle. rewrite datetime_compare_Lt in Hinv. lia.
Qed.

Lemma get_transactions_inverted_range_is_empty_witness :
  get_transactions sample_fromisoformat db_one_of_each None None
    (Some "2024-07-01T00:00:00") (Some "2024-06-01T00:00:00") = Returns [].
Proof.
  apply (get_transactions_inverted_range_is_empty sample_fromisoformat db_one_of_each
           None None (Some "2024-07-01T00:00:00") (Some "2024-06-01T00:00:00")
           (mk_datetime 2024 7 1 0) (mk_datetime 2024 6 1 0)); reflexivity.
Defined.

(** X22 ([get_transactions], [export_csv]: a date that does not parse): when
    [fromisoformat] raises on a start date that was given and is not empty,
    both handlers raise that same exception; nothing is listed or
    exported. *)
Theorem unparsable_start_date_is_raised
    float_str fromisoformat db now type category_id start_date end_date e :
  start_date <> "" ->
  fromisoformat (str_replace "Z"%char "+00:00" start_date) = Raises e ->
  get_transactions fromisoformat db type category_id (Some start_date) end_date
    = Raises e /\
  export_csv float_str fromisoformat db now (Some start_date) end_date = Raises e.
Proof.
  intros Hne He.
  assert (Hp : parse_bound fromisoformat (Some start_date) = Raises e).
  { unfold parse_bound. destruct start_date as [|a s]; [congruence |].
    rewrite He. reflexivity. }
  unfold get_transactions, export_csv. rewrite Hp. split; reflexivity.
Qed.

Lemma unparsable_start_date_is_raised_witness :
  get_transactions sample_fromisoformat db_one_of_each None None (Some "yesterday") None
    = Raises (ValueError "Invalid isoformat string") /\
  export_csv fifty_str sample_fromisoformat db_one_of_each mid_june_2024
    (Some "yesterday") None
    = Raises (ValueError "Invalid isoformat string").
Proof.
  apply (unparsable_start_date_is_raised fifty_str sample_fromisoformat db_one_of_each
           mid_june_2024 None None "yesterday" None).
  - discriminate.
  - reflexivity.
Defined.

(** X23 ([get_reminders]): the listing returns at most 100 stored
    reminders, earliest date first, and all of them, each as often as it is
    stored, when there are at most 100. *)
Theorem get_reminders_sorted_and_capped db :
  (length (get_reminders db) <= 100)%nat /\
  StronglySorted (fun a b => datetime_leb (rem_date a) (rem_date b) = true)
    (get_reminders db) /\
  (forall r, In r (get_reminders db) -> In r (reminders db)) /\
  ((length (reminders db) <= 100)%nat -> get_reminders db ≡ₚ reminders db).
Proof.
  unfold get_reminders. rewrite filter_all. repeat split.
  - rewrite length_take. apply Nat.le_min_l.
  - apply StronglySorted_take. apply (StronglySorted_merge_sort reminder_date_asc).
  - intros r Hr. apply list_elem_of_In, subseteq_take in Hr.
    rewrite merge_sort_Permutation in Hr. apply list_elem_of_In, Hr.
  - intros Hcap. rewrite take_ge.
    + apply merge_sort_Permutation.
    + rewrite merge_sort_Permutation. exact Hcap.
Qed.

(** ** Export *)

Lemma count_char_app c s1 s2 :
  count_char c (s1 +:+ s2) = (count_char c s1 + count_char c s2)%nat.
Proof.
  induction s1 as [|x s1 IH]; [reflexivity |].
  change (String x s1 +:+ s2) with (String x (s1 +:+ s2)).
  cbn [count_char]. rewrite IH. lia.
Qed.

Lemma csv_escape_no_comma s : count_char ","%char (csv_escape s) = 0%nat.
Proof.
  induction s as [|c s IH]; [reflexivity |]. cbn [csv_escape].
  destruct (Ascii.eqb c dquote) eqn:Hq; [exact IH |].
  destruct (Ascii.eqb c ","%char) eqn:Hc; [exact IH |].
  cbn [count_char]. rewrite Hc. exact IH.
Qed.

Lemma csv_escape_even_quotes s : Nat.even (count_char dquote (csv_escape s)) = true.
Proof.
  induction s as [|c s IH]; [reflexivity |]. cbn [csv_escape].
  destruct (Ascii.eqb c dquote) eqn:Hq; [exact IH |].
  destruct (Ascii.eqb c ","%char) eqn:Hc; [exact IH |].
  cbn [count_char]. rewrite Hq. exact IH.
Qed.

(** X24 ([export_csv], the note of a row): in every row that is produced,
    the note field starts with a double quote, holds no comma and holds an
    even number of double quotes; whatever the note says, it stays one
    quoted cell. *)
Theorem note_field_is_one_quoted_cell float_str t fields :
  csv_fields float_str t = Returns fields ->
  exists inner,
    fields !! 4%nat = Some (String dquote inner) /\
    length fields = 5%nat /\
    count_char ","%char (String dquote inner) = 0%nat /\
    Nat.even (count_char dquote (String dquote inner)) = true.
Proof.
  unfold csv_fields.
  destruct (tx_note t) as [| |raw]; cbn [mbind outcome_bind Py.bind mret outcome_ret];
    intros H; inversion H; subst fields; clear H.
  - eexists. split; [reflexivity |]. repeat split.
  - rewrite replace_twice_is_csv_escape.
    exists (csv_escape raw +:+ String dquote "").
    split; [reflexivity |]. split; [reflexivity |].
    cbn [count_char]. rewrite !count_char_app. split.
    + rewrite csv_escape_no_comma. reflexivity.
    + change (Ascii.eqb dquote dquote) with true.
      change (count_char dquote (String dquote "")) with 1%nat.
      rewrite Nat.add_comm, <- Nat.add_assoc.
      rewrite Nat.even_add, csv_escape_even_quotes. reflexivity.
Qed.

Lemma note_field_is_one_quoted_cell_witness :
  exists inner,
    [ "2024-06-15"; "expense"; "Other"; "50.0"; quoted_note_field ] !! 4%nat
      = Some (String dquote inner) /\
    length [ "2024-06-15"; "expense"; "Other"; "50.0"; quoted_note_field ] = 5%nat /\
    count_char ","%char (String dquote inner) = 0%nat /\
    Nat.even (count_char dquote (String dquote inner)) = true.
Proof.
  apply (note_field_is_one_quoted_cell fifty_str noted_transaction).
  reflexivity.
Defined.

Lemma csv_row_unless_null float_str t :
  (tx_note t = Null /\
   csv_row float_str t =
     Raises (AttributeError "'NoneType' object has no attribute 'replace'")) \/
  (exists row, csv_row float_str t = Returns row).
Proof.
  unfold csv_row, csv_fields. destruct (tx_note t); cbn; eauto.
Qed.

Lemma csv_rows_loop_null float_str txs acc :
  Exists (fun t => tx_note t = Null) txs ->
  csv_rows_loop float_str txs acc =
    Raises (AttributeError "'NoneType' object has no attribute 'replace'").
Proof.
  intros Hex. revert acc. induction txs as [|t txs IH]; intros acc.
  - inversion Hex.
  - cbn [csv_rows_loop].
    destruct (csv_row_unless_null float_str t) as [[Hnull Hrow] | [row Hrow]];
      rewrite Hrow; cbn [mbind outcome_bind Py.bind]; [reflexivity |].
    apply IH. inversion Hex as [? ? Hnull | ? ? Hrest]; subst; [| exact Hrest].
    exfalso. unfold csv_row, csv_fields in Hrow. rewrite Hnull in Hrow. discriminate.
Qed.

(** X25 ([export_csv] and a stored null note): when the database holds at
    most 10000 transactions and one of them has the note [None], an export
    without date bounds raises [AttributeError]; no row is exported. *)
Theorem export_fails_on_null_note float_str fromisoformat db now t :
  In t (transactions db) -> tx_note t = Null ->
  (length (transactions db) <= 10 * 1000)%nat ->
  export_csv float_str fromisoformat db now None None =
    Raises (AttributeError "'NoneType' object has no attribute 'replace'").
Proof.
  intros Hin Hnull Hcap. unfold export_csv.
  cbn [parse_bound mbind outcome_bind Py.bind mret outcome_ret].
  rewrite (filter_ext _ (fun _ => true)) by reflexivity.
  rewrite filter_all.
  rewrite take_ge by (rewrite merge_sort_Permutation; exact Hcap).
  rewrite csv_rows_loop_null; [reflexivity |].
  apply Exists_exists. exists t. split; [| exact Hnull].
  rewrite merge_sort_Permutation. apply list_elem_of_In, Hin.
Qed.

Lemma export_fails_on_null_note_witness :
  export_csv fifty_str sample_fromisoformat db_null_note mid_june_2024 None None =
    Raises (AttributeError "'NoneType' object has no attribute 'replace'").
Proof.
  apply (export_fails_on_null_note fifty_str sample_fromisoformat db_null_note
           mid_june_2024 null_note_transaction).
  - right. left. reflexivity.
  - reflexivity.
  - cbn. lia.
Defined.

(** X26 ([export_csv] when nothing matches): when the date parameters parse
    and no stored transaction lies within the bounds, the export is the
    header line alone, and the file name is [expense_report_] followed by the
    year, month and day of the moment of the export and [.csv]. *)
Theorem export_of_nothing_is_the_header float_str fromisoformat db now
    start_date end_date gte lte :
  parse_bound fromisoformat start_date = Returns gte ->
  parse_bound fromisoformat end_date = Returns lte ->
  Forall (fun t => matches_query (mk_DateQuery gte lte) t = false) (transactions db) ->
  export_csv float_str fromisoformat db now start_date end_date =
    Returns {| csv_content := "Date,Type,Category,Amount,Notes";
               filename := "expense_report_" +:+ strftime_Ymd now +:+ ".csv" |}.
Proof.
  intros Hgte Hlte Hnone. unfold export_csv. rewrite Hgte, Hlte.
  cbn [mbind outcome_bind Py.bind mret outcome_ret].
  rewrite (filter_none _ _ Hnone). reflexivity.
Qed.

Lemma export_of_nothing_is_the_header_witness :
  export_csv fifty_str sample_fromisoformat empty_db mid_june_2024 None None =
    Returns {| csv_content := "Date,Type,Category,Amount,Notes";
               filename := "expense_report_20240615.csv" |}.
Proof.
  apply (export_of_nothing_is_the_header fifty_str sample_fromisoformat empty_db
           mid_june_2024 None None None None); try reflexivity.
  constructor.
Defined.

(** ** Reset and seeding *)

(** X27 ([reset_all_data], then the listings): a reset empties the three
    collections whatever they held; the next listing of categories returns
    the eight default categories, and the listings of transactions and of
    reminders are empty. *)
Theorem reset_then_lists uuid4 utcnow fromisoformat db :
  (reset_all_data db).2 = mk_Db [] [] [] /\
  map name_color_icon (get_categories uuid4 utcnow (reset_all_data db).2).1
    = DEFAULT_CATEGORIES /\
  get_transactions fromisoformat (reset_all_data db).2 None None None None = Returns [] /\
  get_reminders (reset_all_data db).2 = [].
Proof. repeat split. Qed.

(** X28 ([get_categories], whatever the catalog holds): the listing is
    never empty and never longer than 100; it is the first 100 of the stored
    categories after the call; the categories stored before are all kept, in
    order, at the front; transactions and reminders are not touched. *)
Theorem get_categories_never_empty uuid4 utcnow db :
  (get_categories uuid4 utcnow db).1 <> [] /\
  (length (get_categories uuid4 utcnow db).1 <= 100)%nat /\
  (get_categories uuid4 utcnow db).1
    = take 100 (categories (get_categories uuid4 utcnow db).2) /\
  (exists added,
     categories (get_categories uuid4 utcnow db).2 = (categories db ++ added)%list) /\
  transactions (get_categories uuid4 utcnow db).2 = transactions db /\
  reminders (get_categories uuid4 utcnow db).2 = reminders db.
Proof.
  destruct db as [cats txs rems]. unfold get_categories.
  rewrite find_all_to_list. cbn [categories transactions reminders].
  destruct cats as [|c cats].
  - cbn. repeat split; try discriminate; try lia. eexists. reflexivity.
  - cbn [take fst snd categories transactions reminders].
    repeat split; try discriminate.
    + cbn [length]. rewrite length_take. lia.
    + exists []. now rewrite app_nil_r.
Qed.

(** X29 ([delete_category] then [get_categories]): deleting the only stored
    category leaves an empty catalog, and the next listing fills it with the
    eight defaults: the deleted category is gone and eight others are
    there. *)
Theorem deleting_the_last_category_reseeds uuid4 utcnow c txs rems :
  exists db',
    delete_category (mk_Db [c] txs rems) (cat_id c)
      = (Returns "Category deleted successfully", db') /\
    categories db' = [] /\
    map name_color_icon (get_categories uuid4 utcnow db').1 = DEFAULT_CATEGORIES /\
    length (categories (get_categories uuid4 utcnow db').2) = 8%nat.
Proof.
  eexists. split.
  - unfold delete_category. cbn [categories Collection.delete_one].
    rewrite String.eqb_refl. reflexivity.
  - repeat split.
Qed.
